(** * ChartEditor: button geometry and lifecycle

    A shallow embedding of [src/components/ChartEditor.tsx]: the canvas
    reclamp effect, the button lifecycle handlers (add, settings, save,
    cancel, duplicate, delete), the canvas dimension handlers and the
    legend override handler, followed by the properties the specification
    states about them.

    React state is modelled by explicit state passing: a handler is a
    function [State -> State], a [setX] call is a record update and an
    effect is a state transition run after the handler when one of its
    dependencies changed. *)

From Stdlib Require Import ZArith Lia Bool Ascii String.
From stdpp Require Import base option list strings gmap pretty.

Local Open Scope Z_scope.

(** ** JavaScript numbers and the primitives the component uses

    The component stores geometry and canvas dimensions in JS [number]s.
    The fragment modelled here is the integer-valued numbers, on which
    [+], [-], [Math.max], [Math.min] and the comparisons are exact (that is
    the case up to 2^53 in the source), together with [NaN], which
    [parseInt] produces and every arithmetic primitive propagates.
    Fractions, infinities, the sign of zero and rounding are outside this
    fragment.

    The source computes on doubles. On the safe integers
    ([isSafeInteger], magnitude at most 2^53 - 1) the operations below
    give what the source gives; beyond, the source rounds ([+], [-],
    [parseInt]) or changes notation ([String]) where the definitions
    here stay exact. A property that needs the arithmetic to be exact is
    therefore stated for safe integers, and one that needs two equal
    numbers to be the same value for numbers other than 0, which has two
    signs in the source. *)
Module JS.

Inductive number : Type :=
  | NaN : number
  | Num : Z -> number.

#[global] Instance number_eq_dec : EqDecision number.
Proof. solve_decision. Defined.

Definition isNaN (a : number) : bool :=
  match a with NaN => true | Num _ => false end.

(** [Number.MAX_SAFE_INTEGER], 2^53 - 1. *)
Definition MAX_SAFE_INTEGER : Z := 9007199254740991.

(** [Number.isSafeInteger(a)] *)
Definition isSafeInteger (a : number) : bool :=
  match a with
  | NaN => false
  | Num z => (- MAX_SAFE_INTEGER <=? z) && (z <=? MAX_SAFE_INTEGER)
  end.

(** [a + b], exact; the source rounds a sum beyond 2^53. *)
Definition add (a b : number) : number :=
  match a, b with
  | Num x, Num y => Num (x + y)
  | _, _ => NaN
  end.

(** [a - b], exact; the source rounds a difference beyond 2^53. *)
Definition sub (a b : number) : number :=
  match a, b with
  | Num x, Num y => Num (x - y)
  | _, _ => NaN
  end.

(** [Math.max(a, b)]: NaN as soon as one argument is NaN. *)
Definition Math_max (a b : number) : number :=
  match a, b with
  | Num x, Num y => Num (Z.max x y)
  | _, _ => NaN
  end.

(** [Math.min(a, b)]: NaN as soon as one argument is NaN. *)
Definition Math_min (a b : number) : number :=
  match a, b with
  | Num x, Num y => Num (Z.min x y)
  | _, _ => NaN
  end.

(** [a < b]: every comparison with NaN is false. *)
Definition lt (a b : number) : bool :=
  match a, b with
  | Num x, Num y => x <? y
  | _, _ => false
  end.

(** [a <= b] *)
Definition le (a b : number) : bool :=
  match a, b with
  | Num x, Num y => x <=? y
  | _, _ => false
  end.

(** [a >= b] *)
Definition ge (a b : number) : bool := le b a.

(** [a !== b] on numbers: NaN is different from everything, itself
    included. *)
Definition strict_ne (a b : number) : bool :=
  match a, b with
  | Num x, Num y => negb (x =? y)
  | _, _ => true
  end.

(** [Object.is(a, b)] on numbers of the fragment: the comparison React
    applies to effect dependencies; NaN is the same value as NaN. The
    fragment has one zero, where the source tells 0 from -0. *)
Definition Object_is (a b : number) : bool :=
  match a, b with
  | NaN, NaN => true
  | Num x, Num y => x =? y
  | _, _ => false
  end.

(** [a || d] on numbers: [d] when [a] is falsy (0 or NaN). *)
Definition or_default (a d : number) : number :=
  match a with
  | NaN => d
  | Num z => if z =? 0 then d else a
  end.

(** [String(a)]: the decimal digits, which is what the source prints for
    an integer below 10^21. *)
Definition String_of (a : number) : string :=
  match a with
  | NaN => "NaN"
  | Num z => pretty z
  end.

(** *** [parseInt(s, 10)]

    A string is the sequence of the UTF-8 bytes of the text. Leading white
    space and line terminators are skipped, one sign is read, then the
    longest prefix of decimal digits; with no digit the result is NaN. The
    value of the digits is exact here; the source rounds it to a double,
    which changes nothing for a safe integer. *)

(** The white space and line terminators of one byte: TAB, LF, VT, FF, CR
    and the space. *)
Definition is_white_space (c : ascii) : bool :=
  let n := nat_of_ascii c in
  ((n =? 32) || (n =? 9) || (n =? 10) || (n =? 11) || (n =? 12) || (n =? 13))%nat.

(** The white space of two bytes: U+00A0 (C2 A0). *)
Definition is_white_space2 (c1 c2 : ascii) : bool :=
  ((nat_of_ascii c1 =? 194) && (nat_of_ascii c2 =? 160))%nat.

(** The white space and line terminators of three bytes: U+1680
    (E1 9A 80), U+2000 to U+200A (E2 80 80 to E2 80 8A), U+2028 and U+2029
    (E2 80 A8, E2 80 A9), U+202F (E2 80 AF), U+205F (E2 81 9F), U+3000
    (E3 80 80) and U+FEFF (EF BB BF). *)
Definition is_white_space3 (c1 c2 c3 : ascii) : bool :=
  let n1 := nat_of_ascii c1 in
  let n2 := nat_of_ascii c2 in
  let n3 := nat_of_ascii c3 in
  ((n1 =? 225) && (n2 =? 154) && (n3 =? 128)
   || (n1 =? 226) && (n2 =? 128)
      && ((128 <=? n3) && (n3 <=? 138) || (n3 =? 168) || (n3 =? 169) || (n3 =? 175))
   || (n1 =? 226) && (n2 =? 129) && (n3 =? 159)
   || (n1 =? 227) && (n2 =? 128) && (n3 =? 128)
   || (n1 =? 239) && (n2 =? 187) && (n3 =? 191))%nat.

Fixpoint skip_white_space (s : string) : string :=
  match s with
  | String c1 r1 =>
      if is_white_space c1 then skip_white_space r1
      else
        match r1 with
        | String c2 r2 =>
            if is_white_space2 c1 c2 then skip_white_space r2
            else
              match r2 with
              | String c3 r3 =>
                  if is_white_space3 c1 c2 c3 then skip_white_space r3 else s
              | EmptyString => s
              end
        | EmptyString => s
        end
  | EmptyString => s
  end.

Definition digit_value (c : ascii) : option Z :=
  let n := nat_of_ascii c in
  if ((48 <=? n) && (n <=? 57))%nat then Some (Z.of_nat n - 48) else None.

(** The value of the longest prefix of digits; [acc] is [None] until a
    first digit has been read. *)
Fixpoint parse_digits (s : string) (acc : option Z) : option Z :=
  match s with
  | String c s' =>
      match digit_value c with
      | Some d => parse_digits s' (Some (10 * default 0 acc + d))
      | None => acc
      end
  | EmptyString => acc
  end.

Definition parseInt (s : string) : number :=
  let s1 := skip_white_space s in
  let '(negative, s2) :=
    match s1 with
    | String "-"%char r => (true, r)
    | String "+"%char r => (false, r)
    | _ => (false, s1)
    end in
  match parse_digits s2 None with
  | None => NaN
  | Some n => Num (if negative : bool then - n else n)
  end.

End JS.

Import JS.

(** ** Data model *)

Inductive ButtonType : Type := normal | label.

#[global] Instance ButtonType_eq_dec : EqDecision ButtonType.
Proof. solve_decision. Defined.

(** Modelled from the spec: the [ChartButton] type of [@/types/chart] is
    not part of the sources; its fields are those of the object literal in
    [handleAddButton] and of the Button of the data model. *)
Record ChartButton : Type := mkButton {
  id : string;
  name : string;
  color : string;
  linkedItem : string;
  x : number;
  y : number;
  width : number;
  height : number;
  type : ButtonType;
  isFontAdaptive : bool;
  fontSize : number;
  fontColor : string;
  showLegend : bool;
  legendOverrides : gmap string string;
}.

#[global] Instance ChartButton_eq_dec : EqDecision ChartButton.
Proof. solve_decision. Defined.

(** [{ ...button, x: newX, y: newY, width: newWidth, height: newHeight }] *)
Definition with_geometry (b : ChartButton) (nx ny nw nh : number) : ChartButton :=
  mkButton (id b) (name b) (color b) (linkedItem b) nx ny nw nh (type b)
    (isFontAdaptive b) (fontSize b) (fontColor b) (showLegend b)
    (legendOverrides b).

(** [{ ...editingButton, id: newId, x: nx, y: ny }] *)
Definition with_id_position (b : ChartButton) (i : string) (nx ny : number) : ChartButton :=
  mkButton i (name b) (color b) (linkedItem b) nx ny (width b) (height b)
    (type b) (isFontAdaptive b) (fontSize b) (fontColor b) (showLegend b)
    (legendOverrides b).

(** [{ ...prev, legendOverrides: newOverrides }] *)
Definition with_legendOverrides (b : ChartButton) (m : gmap string string) : ChartButton :=
  mkButton (id b) (name b) (color b) (linkedItem b) (x b) (y b) (width b)
    (height b) (type b) (isFontAdaptive b) (fontSize b) (fontColor b)
    (showLegend b) m.

Definition MIN_CANVAS_DIMENSION : number := Num 100.
Definition MIN_BUTTON_DIMENSION : number := Num 5.

(** ** The canvas reclamp effect *)

(** The geometry the body of the [map] callback computes for one button,
    as [(newX, newY, newWidth, newHeight)]. *)
Definition clampGeometry (canvasWidth canvasHeight : number) (button : ChartButton)
  : number * number * number * number :=
  let newX := x button in
  let newY := y button in
  let newWidth := width button in
  let newHeight := height button in
  let newWidth := Math_max MIN_BUTTON_DIMENSION newWidth in
  let newHeight := Math_max MIN_BUTTON_DIMENSION newHeight in
  let newX := Math_max (Num 0) (Math_min newX (sub canvasWidth newWidth)) in
  let newY := Math_max (Num 0) (Math_min newY (sub canvasHeight newHeight)) in
  let newWidth := Math_min newWidth (sub canvasWidth newX) in
  let newHeight := Math_min newHeight (sub canvasHeight newY) in
  (newX, newY, newWidth, newHeight).

(** The test of the [if] in the callback: does one of the four fields
    differ ([!==]) from the button's? *)
Definition geometryDiffers (button : ChartButton) (g : number * number * number * number) : bool :=
  let '(newX, newY, newWidth, newHeight) := g in
  strict_ne newX (x button) || strict_ne newY (y button)
  || strict_ne newWidth (width button) || strict_ne newHeight (height button).

(** The [map] callback: the flag it raises ([changed = true]) and the
    button it returns, a rebuilt object or [button] itself. *)
Definition reclampButton (canvasWidth canvasHeight : number) (button : ChartButton)
  : bool * ChartButton :=
  let g := clampGeometry canvasWidth canvasHeight button in
  if geometryDiffers button g then
    let '(newX, newY, newWidth, newHeight) := g in
    (true, with_geometry button newX newY newWidth newHeight)
  else (false, button).

(** The geometry clamp of the specification, [clamp(b, W, H)]: the button
    the callback returns. *)
Definition clamp (button : ChartButton) (canvasWidth canvasHeight : number) : ChartButton :=
  snd (reclampButton canvasWidth canvasHeight button).

(** What a state updater hands back to React: the array it was given (the
    same reference) or a newly built one. *)
Inductive Updated (A : Type) : Type :=
  | SameReference : Updated A
  | NewArray : A -> Updated A.
Arguments SameReference {A}.
Arguments NewArray {A} _.

Definition resolve {A : Type} (prev : A) (u : Updated A) : A :=
  match u with
  | SameReference => prev
  | NewArray v => v
  end.

(** The updater passed to [setButtons] by the effect. [changed] is raised
    by the callback for at least one button or stays [false]. *)
Definition reclampUpdater (canvasWidth canvasHeight : number) (prevButtons : list ChartButton)
  : Updated (list ChartButton) :=
  let results := map (reclampButton canvasWidth canvasHeight) prevButtons in
  let changed := existsb fst results in
  let updatedButtons := map snd results in
  if changed then NewArray updatedButtons else SameReference.

(** ** Props and state of the component *)

(** Modelled from the spec: the [StoredChart] type of [@/types/chart] is
    not part of the sources; these are the four fields the component reads
    and writes. A dimension the stored chart does not have is not
    represented; like 0 and NaN it would give way to the default. *)
Record StoredChart : Type := mkChart {
  chart_name : string;
  chart_buttons : list ChartButton;
  chart_canvasWidth : number;
  chart_canvasHeight : number;
}.

(** Modelled from the spec: a reference item (a range of the range
    context); the component reads only its id. *)
Record Range : Type := mkRange { range_id : string }.

(** The [useState] slots. *)
Record State : Type := mkState {
  chartName : string;
  buttons : list ChartButton;
  canvasWidth : number;
  canvasHeight : number;
  isButtonModalOpen : bool;
  editingButton : option ChartButton;
  isLegendPreviewOpen : bool;
}.

Definition setChartName (v : string) (st : State) : State :=
  mkState v (buttons st) (canvasWidth st) (canvasHeight st)
    (isButtonModalOpen st) (editingButton st) (isLegendPreviewOpen st).

(** [setButtons(prev => f(prev))] *)
Definition setButtons (f : list ChartButton -> list ChartButton) (st : State) : State :=
  mkState (chartName st) (f (buttons st)) (canvasWidth st) (canvasHeight st)
    (isButtonModalOpen st) (editingButton st) (isLegendPreviewOpen st).

Definition setCanvasWidth (v : number) (st : State) : State :=
  mkState (chartName st) (buttons st) v (canvasHeight st)
    (isButtonModalOpen st) (editingButton st) (isLegendPreviewOpen st).

Definition setCanvasHeight (v : number) (st : State) : State :=
  mkState (chartName st) (buttons st) (canvasWidth st) v
    (isButtonModalOpen st) (editingButton st) (isLegendPreviewOpen st).

Definition setIsButtonModalOpen (v : bool) (st : State) : State :=
  mkState (chartName st) (buttons st) (canvasWidth st) (canvasHeight st)
    v (editingButton st) (isLegendPreviewOpen st).

(** [setEditingButton(prev => f(prev))]; [setEditingButton(v)] is the
    constant updater. *)
Definition setEditingButton (f : option ChartButton -> option ChartButton) (st : State) : State :=
  mkState (chartName st) (buttons st) (canvasWidth st) (canvasHeight st)
    (isButtonModalOpen st) (f (editingButton st)) (isLegendPreviewOpen st).

Definition setIsLegendPreview (v : bool) (st : State) : State :=
  mkState (chartName st) (buttons st) (canvasWidth st) (canvasHeight st)
    (isButtonModalOpen st) (editingButton st) v.

(** The two canvas dimension fields, ['width' | 'height']. *)
Inductive Dimension : Type := dim_width | dim_height.

Definition dimension_setter (dimension : Dimension) : number -> State -> State :=
  match dimension with
  | dim_width => setCanvasWidth
  | dim_height => setCanvasHeight
  end.

Definition dimension_of (dimension : Dimension) (st : State) : number :=
  match dimension with
  | dim_width => canvasWidth st
  | dim_height => canvasHeight st
  end.

(** The state of the first render. *)
Definition initialState (chart : StoredChart) : State :=
  mkState (chart_name chart) (chart_buttons chart)
    (or_default (chart_canvasWidth chart) (Num 800))
    (or_default (chart_canvasHeight chart) (Num 500))
    false None false.

(** The effect on [[canvasWidth, canvasHeight]]. It also runs once after
    the first render (see [mount]). *)
Definition reclampEffect (st : State) : State :=
  setButtons
    (fun prevButtons =>
       resolve prevButtons (reclampUpdater (canvasWidth st) (canvasHeight st) prevButtons))
    st.

(** After a handler has run, React renders again and runs the reclamp
    effect when one of its two dependencies is no longer the same value. *)
Definition commitRender (before after : State) : State :=
  if Object_is (canvasWidth before) (canvasWidth after)
     && Object_is (canvasHeight before) (canvasHeight after)
  then after
  else reclampEffect after.

(** Mounting the component: the first render, then the effects. The effect
    on [[chart]] sets the values the state already has. *)
Definition mount (chart : StoredChart) : State :=
  reclampEffect (initialState chart).

(** One user event: the handler, then the effects it triggers. *)
Definition dispatch (handler : State -> State) (st : State) : State :=
  commitRender st (handler st).

(** ** Handlers *)

Section Handlers.

(** The props and context values the handlers close over. *)
Variable chart : StoredChart.
Variable allRanges : list Range.

(** [now] is the value [Date.now()] returns when the handler runs. *)
Definition handleAddButton (now : Z) (st : State) : State :=
  let newButton :=
    {| id := String_of (Num now);
       name := "new";
       color := "#60A5FA";
       linkedItem := match allRanges with
                     | r :: _ => range_id r
                     | [] => "label-only"
                     end;
       x := Num 50;
       y := Num 50;
       width := Num 120;
       height := Num 40;
       type := match allRanges with _ :: _ => normal | [] => label end;
       isFontAdaptive := true;
       fontSize := Num 16;
       fontColor := "white";
       showLegend := false;
       legendOverrides := ∅ |} in
  let st := setButtons (fun prev => prev ++ [newButton]) st in
  let st := setEditingButton (fun _ => Some newButton) st in
  setIsButtonModalOpen true st.

Definition handleSettingsClick (button : ChartButton) (st : State) : State :=
  let st := setEditingButton (fun _ => Some button) st in
  setIsButtonModalOpen true st.

Definition handleSaveButtonProperties (st : State) : State :=
  match editingButton st with
  | Some editing =>
      let st :=
        setButtons
          (fun prev =>
             map (fun btn => if bool_decide (id btn = id editing) then editing else btn) prev)
          st in
      let st := setIsButtonModalOpen false st in
      setEditingButton (fun _ => None) st
  | None => st
  end.

Definition handleCancelButtonProperties (st : State) : State :=
  let st' :=
    match editingButton st with
    | Some editing =>
        if negb (existsb (fun b => bool_decide (id b = id editing)) (chart_buttons chart))
        then setButtons (fun prevButtons => filter (fun b => id b ≠ id editing) prevButtons) st
        else st
    | None => st
    end in
  let st' := setIsButtonModalOpen false st' in
  setEditingButton (fun _ => None) st'.

Definition duplicateCurrentButton (now : Z) (st : State) : State :=
  match editingButton st with
  | Some editing =>
      let newButton :=
        with_id_position editing (String_of (Num now))
          (add (x editing) (Num 10)) (add (y editing) (Num 10)) in
      let st := setButtons (fun prev => prev ++ [newButton]) st in
      let st := setIsButtonModalOpen false st in
      setEditingButton (fun _ => None) st
  | None => st
  end.

Definition handleDeleteButton (st : State) : State :=
  match editingButton st with
  | Some editing =>
      let st := setButtons (fun prev => filter (fun btn => id btn ≠ id editing) prev) st in
      let st := setIsButtonModalOpen false st in
      setEditingButton (fun _ => None) st
  | None => st
  end.

(** The chart handed to [onSaveChart]. *)
Definition handleBackButtonClick (st : State) : StoredChart :=
  mkChart (chartName st) (buttons st) (canvasWidth st) (canvasHeight st).

Definition handleDimensionChange (value : string) (dimension : Dimension) (st : State) : State :=
  let setter := dimension_setter dimension in
  setter (parseInt value) st.

Definition handleDimensionBlur (currentValue : number) (dimension : Dimension) (st : State) : State :=
  let setter := dimension_setter dimension in
  if isNaN currentValue || lt currentValue MIN_CANVAS_DIMENSION
  then setter MIN_CANVAS_DIMENSION st
  else st.

Definition handleOpenLegendPreview (st : State) : State :=
  match editingButton st with
  | Some _ => setIsLegendPreview true st
  | None => st
  end.

Definition handleSaveLegendOverrides (newOverrides : gmap string string) (st : State) : State :=
  let st :=
    setEditingButton
      (fun prev =>
         match prev with
         | None => None
         | Some p => Some (with_legendOverrides p newOverrides)
         end)
      st in
  setIsLegendPreview false st.

(** The settings dialog edits the draft through the [setEditingButton]
    prop it is given, and nothing else. *)
Definition updateDraft (f : option ChartButton -> option ChartButton) (st : State) : State :=
  setEditingButton f st.

End Handlers.

(** ** Specification vocabulary *)

(** The four geometry fields of a button. *)
Definition geometry (b : ChartButton) : number * number * number * number :=
  (x b, y b, width b, height b).

(** None of the four geometry fields is NaN. *)
Definition numericGeometry (b : ChartButton) : Prop :=
  isNaN (x b) = false /\ isNaN (y b) = false
  /\ isNaN (width b) = false /\ isNaN (height b) = false.

(** The four geometry fields are safe integers: integer-valued, of
    magnitude at most 2^53 - 1, hence not NaN. *)
Definition safeGeometry (b : ChartButton) : Prop :=
  isSafeInteger (x b) = true /\ isSafeInteger (y b) = true
  /\ isSafeInteger (width b) = true /\ isSafeInteger (height b) = true.

(** The Button invariant of the data model, decided with the comparisons of
    the source language: [x + width <= W], [y + height <= H],
    [width >= MIN_BUTTON_DIMENSION], [height >= MIN_BUTTON_DIMENSION]. *)
Definition geometryInvariantb (W H : number) (b : ChartButton) : bool :=
  le (add (x b) (width b)) W
  && le (add (y b) (height b)) H
  && ge (width b) MIN_BUTTON_DIMENSION
  && ge (height b) MIN_BUTTON_DIMENSION.

Definition geometryInvariant (W H : number) (b : ChartButton) : Prop :=
  geometryInvariantb W H b = true.

(** The position is inside the canvas on the top and left: [x >= 0] and
    [y >= 0], the range the data model gives to [x] and [y]. *)
Definition nonNegativePosition (b : ChartButton) : Prop :=
  ge (x b) (Num 0) = true /\ ge (y b) (Num 0) = true.

(** The ids in use in a collection. *)
Definition ids (l : list ChartButton) : list string := map id l.

(** A button at the default geometry, for examples. *)
Definition sampleButton (i : string) (bx by_ bw bh : number) : ChartButton :=
  mkButton i "new" "#60A5FA" "label-only" bx by_ bw bh label true (Num 16)
    "white" false ∅.

(** A run of edits made in the settings dialog, oldest first. *)
Definition draftUpdates (fs : list (option ChartButton -> option ChartButton)) (st : State) : State :=
  fold_left (fun s f => updateDraft f s) fs st.

(** Typing [value] in a canvas dimension field, then leaving the field: the
    blur handler is given the pending value of that dimension, and the
    reclamp effect runs after each of the two events if the dimensions
    changed. *)
Definition typeThenBlur (value : string) (dimension : Dimension) (st : State) : State :=
  let st1 := dispatch (handleDimensionChange value dimension) st in
  dispatch (handleDimensionBlur (dimension_of dimension st1) dimension) st1.

(** A chart with a single default button on the default canvas, and the
    editor opened on it. *)
Definition sampleChart : StoredChart :=
  mkChart "chart"
    [sampleButton "1700000000000" (Num 50) (Num 50) (Num 120) (Num 40)]
    (Num 800) (Num 500).

Definition sampleState : State := mount sampleChart.

(** ** The rest of the component *)

(** The effect on [[chart]]: when the [chart] prop is another chart, the
    name, the collection and the canvas are taken from it. The draft and
    the dialog flags are not among the slots it sets. *)
Definition chartEffect (chart : StoredChart) (st : State) : State :=
  let st := setChartName (chart_name chart) st in
  let st := setButtons (fun _ => chart_buttons chart) st in
  let st := setCanvasWidth (or_default (chart_canvasWidth chart) (Num 800)) st in
  setCanvasHeight (or_default (chart_canvasHeight chart) (Num 500)) st.

(** A render with a new [chart] prop: the effect on [[chart]], then, in
    the render its updates cause, the reclamp effect if the canvas
    changed. *)
Definition receiveChart (chart : StoredChart) (st : State) : State :=
  dispatch (chartEffect chart) st.

(** Modelled from the spec: a folder of the range context; the component
    reads only its ranges. *)
Record Folder : Type := mkFolder { ranges : list Range }.

(** [folders.flatMap(folder => folder.ranges)] *)
Definition allRangesOf (folders : list Folder) : list Range :=
  flat_map ranges folders.

(** A string is truthy unless it is empty. *)
Definition truthy_string (s : string) : bool :=
  match s with
  | EmptyString => false
  | String _ _ => true
  end.

(** [editingButton?.linkedItem ? allRanges.find(r => r.id === editingButton.linkedItem) : null];
    [undefined] and [null] are both [None]. *)
Definition linkedRangeForPreview (allRanges : list Range) (st : State) : option Range :=
  match editingButton st with
  | Some editing =>
      if truthy_string (linkedItem editing)
      then List.find (fun r => bool_decide (range_id r = linkedItem editing)) allRanges
      else None
  | None => None
  end.

(** The user events the component handles. The two clock readings are the
    values of [Date.now()]; [DimensionBlur] carries the value the blurred
    field reports. *)
Inductive Event : Type :=
  | AddButton (now : Z)
  | SettingsClick (button : ChartButton)
  | UpdateDraft (f : option ChartButton -> option ChartButton)
  | SaveButtonProperties
  | CancelButtonProperties
  | DuplicateButton (now : Z)
  | DeleteButton
  | DimensionChange (value : string) (dimension : Dimension)
  | DimensionBlur (currentValue : number) (dimension : Dimension)
  | OpenLegendPreview
  | SaveLegendOverrides (newOverrides : gmap string string).

Definition handlerOf (chart : StoredChart) (allRanges : list Range) (ev : Event)
  : State -> State :=
  match ev with
  | AddButton now => handleAddButton allRanges now
  | SettingsClick button => handleSettingsClick button
  | UpdateDraft f => updateDraft f
  | SaveButtonProperties => handleSaveButtonProperties
  | CancelButtonProperties => handleCancelButtonProperties chart
  | DuplicateButton now => duplicateCurrentButton now
  | DeleteButton => handleDeleteButton
  | DimensionChange value dimension => handleDimensionChange value dimension
  | DimensionBlur currentValue dimension => handleDimensionBlur currentValue dimension
  | OpenLegendPreview => handleOpenLegendPreview
  | SaveLegendOverrides newOverrides => handleSaveLegendOverrides newOverrides
  end.

(** One event: its handler, then the effects. *)
Definition step (chart : StoredChart) (allRanges : list Range) (ev : Event) (st : State) : State :=
  dispatch (handlerOf chart allRanges ev) st.

(** A session: the events in the order they happen. *)
Definition run (chart : StoredChart) (allRanges : list Range) (evs : list Event) (st : State) : State :=
  fold_left (fun s ev => step chart allRanges ev s) evs st.

(** The clock reading of a creation is not an id in use when the event
    happens. *)
Definition clockFresh (ev : Event) (st : State) : Prop :=
  match ev with
  | AddButton now | DuplicateButton now => String_of (Num now) ∉ ids (buttons st)
  | _ => True
  end.

(** Every creation of the session happens at a fresh clock reading. *)
Fixpoint clockFreshRun (chart : StoredChart) (allRanges : list Range)
    (evs : list Event) (st : State) : Prop :=
  match evs with
  | [] => True
  | ev :: evs' =>
      clockFresh ev st /\ clockFreshRun chart allRanges evs' (step chart allRanges ev st)
  end.

(** The events that act on the draft and do nothing without one. *)
Definition actsOnDraft (ev : Event) : bool :=
  match ev with
  | SaveButtonProperties | CancelButtonProperties | DuplicateButton _
  | DeleteButton | OpenLegendPreview | SaveLegendOverrides _ => true
  | _ => false
  end.

(** The fields of a button the reclamp never writes. *)
Definition nonGeometry (b : ChartButton) :=
  (id b, name b, color b, linkedItem b, type b, isFontAdaptive b, fontSize b,
   fontColor b, showLegend b, legendOverrides b).

(** One axis of a button: position and size. *)
Definition horizontal (b : ChartButton) : number * number := (x b, width b).
Definition vertical (b : ChartButton) : number * number := (y b, height b).

(** ** The geometry clamp *)

(** Case analysis on a button and on each of its four geometry fields,
    NaN or a number. *)
Ltac case_geometry b :=
  destruct b as [? ? ? ? [|?bx] [|?by_] [|?bw] [|?bh] ? ? ? ? ? ?].

Section Clamp.

Lemma strict_ne_false (a b : number) : strict_ne a b = false -> a = b.
Proof.
  destruct a as [|p], b as [|q]; simpl; try discriminate.
  intros E. apply negb_false_iff, Z.eqb_eq in E. by subst.
Qed.

Lemma strict_ne_true_numeric (p q : Z) : strict_ne (Num p) (Num q) = true -> p <> q.
Proof. simpl. intros E. apply negb_true_iff, Z.eqb_neq in E. done. Qed.

Lemma geometryDiffers_false (b : ChartButton) (g : number * number * number * number) :
  geometryDiffers b g = false -> g = geometry b.
Proof.
  destruct g as [[[gx gy] gw] gh]. unfold geometryDiffers, geometry.
  intros E. repeat (apply orb_false_iff in E as [E ?]).
  f_equal; [f_equal; [f_equal|]|]; by apply strict_ne_false.
Qed.

Lemma with_geometry_same (b : ChartButton) :
  with_geometry b (x b) (y b) (width b) (height b) = b.
Proof. by destruct b. Qed.

(** Whichever branch of the callback is taken, the button it returns is the
    argument with the computed geometry. *)
Lemma clamp_unfold (b : ChartButton) (W H : number) :
  clamp b W H =
  let '(nx, ny, nw, nh) := clampGeometry W H b in with_geometry b nx ny nw nh.
Proof.
  unfold clamp, reclampButton.
  destruct (geometryDiffers b (clampGeometry W H b)) eqn:E.
  - by destruct (clampGeometry W H b) as [[[nx ny] nw] nh].
  - apply geometryDiffers_false in E. rewrite E. simpl.
    by rewrite with_geometry_same.
Qed.

Lemma clamp_geometry (b : ChartButton) (W H : number) :
  geometry (clamp b W H) = clampGeometry W H b.
Proof.
  rewrite clamp_unfold.
  by destruct (clampGeometry W H b) as [[[nx ny] nw] nh].
Qed.

(** The clamp touches the four geometry fields only. *)
Lemma clamp_frame (b : ChartButton) (W H : number) :
  id (clamp b W H) = id b /\ name (clamp b W H) = name b
  /\ color (clamp b W H) = color b /\ linkedItem (clamp b W H) = linkedItem b
  /\ type (clamp b W H) = type b
  /\ legendOverrides (clamp b W H) = legendOverrides b.
Proof.
  rewrite clamp_unfold.
  by destruct (clampGeometry W H b) as [[[nx ny] nw] nh].
Qed.

End Clamp.

(** The primitives on concrete inputs. *)
Example clamp_resize_stability :
  geometry (clamp (sampleButton "b" (Num 700) (Num 400) (Num 120) (Num 40))
              (Num 100) (Num 100))
  = (Num 0, Num 60, Num 100, Num 40).
Proof. reflexivity. Qed.

Example parseInt_abc : parseInt "abc" = NaN.
Proof. reflexivity. Qed.

Example parseInt_empty : parseInt "" = NaN.
Proof. reflexivity. Qed.

Example parseInt_5 : parseInt "5" = Num 5.
Proof. reflexivity. Qed.

Example parseInt_signed_prefix : parseInt "  -42px" = Num (-42).
Proof. reflexivity. Qed.

(** A no-break space (U+00A0, bytes C2 A0) and an ideographic space
    (U+3000, bytes E3 80 80) before the digits are skipped. *)
Example parseInt_no_break_space :
  parseInt (String (ascii_of_nat 194) (String (ascii_of_nat 160) "7")) = Num 7.
Proof. reflexivity. Qed.

Example parseInt_ideographic_space :
  parseInt (String (ascii_of_nat 227) (String (ascii_of_nat 128)
              (String (ascii_of_nat 128) "+12"))) = Num 12.
Proof. reflexivity. Qed.

(** A byte sequence that only starts like white space is not skipped. *)
Example parseInt_not_white_space :
  parseInt (String (ascii_of_nat 226) (String (ascii_of_nat 128)
              (String (ascii_of_nat 148) "7"))) = NaN.
Proof. reflexivity. Qed.

Example String_of_timestamp : String_of (Num 1700000000000) = "1700000000000".
Proof. vm_compute. reflexivity. Qed.

(** ** Invariant preservation and idempotence of the clamp *)

Section ClampProperties.

Lemma invariant_numeric (W H : number) (b : ChartButton) :
  geometryInvariant W H b -> numericGeometry b.
Proof.
  unfold geometryInvariant, geometryInvariantb, numericGeometry.
  case_geometry b; simpl;
    rewrite ?andb_false_r; try discriminate; done.
Qed.

(** On numeric geometry and a canvas of at least [MIN_BUTTON_DIMENSION],
    the clamp puts the button inside the canvas. *)
Lemma clampGeometry_bounds (b : ChartButton) (W H : Z) :
  5 <= W -> 5 <= H -> numericGeometry b ->
  exists nx ny nw nh : Z,
    clampGeometry (Num W) (Num H) b = (Num nx, Num ny, Num nw, Num nh)
    /\ 0 <= nx /\ 0 <= ny /\ 5 <= nw /\ 5 <= nh
    /\ nx + nw <= W /\ ny + nh <= H.
Proof.
  intros HW HH (Hx & Hy & Hw & Hh).
  case_geometry b;
    simpl in Hx, Hy, Hw, Hh; try discriminate.
  unfold clampGeometry; simpl.
  eexists _, _, _, _. split; [reflexivity|]. lia.
Qed.

(** A canvas of the minimum canvas size holds a button of the minimum
    button size. *)
Lemma min_canvas_holds_min_button (W : number) :
  ge W MIN_CANVAS_DIMENSION = true -> ge W MIN_BUTTON_DIMENSION = true.
Proof.
  destruct W as [|w]; simpl; [done|].
  intros Hw. apply Z.leb_le in Hw. apply Z.leb_le. lia.
Qed.

(** The invariant is already reached on any canvas that holds a button of
    the minimum size. *)
Lemma clamp_inside_canvas (b : ChartButton) (W H : number) :
  ge W MIN_BUTTON_DIMENSION = true ->
  ge H MIN_BUTTON_DIMENSION = true ->
  numericGeometry b ->
  geometryInvariant W H (clamp b W H).
Proof.
  intros HW HH Hb.
  destruct W as [|w], H as [|h]; try discriminate.
  apply Z.leb_le in HW, HH.
  destruct (clampGeometry_bounds b w h) as (nx & ny & nw & nh & E & B);
    [lia | lia | done |].
  pose proof (clamp_geometry b (Num w) (Num h)) as G.
  rewrite E in G. unfold geometry in G. injection G as Gx Gy Gw Gh.
  unfold geometryInvariant, geometryInvariantb.
  rewrite Gx, Gy, Gw, Gh. simpl.
  repeat (apply andb_true_iff; split); apply Z.leb_le; lia.
Qed.

(** On a canvas that holds a button of the minimum size the clamp brings
    numeric geometry to the invariant, at a position x >= 0, y >= 0. *)
Lemma clamp_lands_inside (b : ChartButton) (W H : number) :
  ge W MIN_BUTTON_DIMENSION = true ->
  ge H MIN_BUTTON_DIMENSION = true ->
  numericGeometry b ->
  geometryInvariant W H (clamp b W H) /\ nonNegativePosition (clamp b W H).
Proof.
  intros HW HH Hb. split; [by apply clamp_inside_canvas|].
  destruct W as [|w], H as [|h]; try discriminate.
  apply Z.leb_le in HW, HH.
  destruct (clampGeometry_bounds b w h) as (nx & ny & nw & nh & Eg & B);
    [done | done | done |].
  pose proof (clamp_geometry b (Num w) (Num h)) as G.
  rewrite Eg in G. unfold geometry in G. injection G as Gx Gy _ _.
  unfold nonNegativePosition. rewrite Gx, Gy. simpl.
  split; apply Z.leb_le; lia.
Qed.

Lemma isSafeInteger_numeric (a : number) : isSafeInteger a = true -> isNaN a = false.
Proof. by destruct a. Qed.

Lemma safeGeometry_numeric (b : ChartButton) : safeGeometry b -> numericGeometry b.
Proof.
  intros (Hx & Hy & Hw & Hh). repeat split; by apply isSafeInteger_numeric.
Qed.

(** C1 (as amended): for every button whose four geometry fields are
    safe integers (integer-valued, of magnitude at most 2^53 - 1, so not
    NaN) and every canvas whose dimensions are safe integers with
    W >= MIN_CANVAS_DIMENSION and H >= MIN_CANVAS_DIMENSION, the clamped
    button satisfies x + width <= W, y + height <= H,
    width >= MIN_BUTTON_DIMENSION and height >= MIN_BUTTON_DIMENSION. *)
Theorem clamp_preserves_invariant (b : ChartButton) (W H : number) :
  ge W MIN_CANVAS_DIMENSION = true ->
  ge H MIN_CANVAS_DIMENSION = true ->
  isSafeInteger W = true ->
  isSafeInteger H = true ->
  safeGeometry b ->
  geometryInvariant W H (clamp b W H).
Proof.
  intros HW HH _ _ Hb.
  apply clamp_inside_canvas;
    [by apply min_canvas_holds_min_button..|by apply safeGeometry_numeric].
Qed.

(** Below the minimum button size the width collapses to the canvas width
    and the invariant is out of reach. *)
Example clamp_on_tiny_canvas :
  geometry (clamp (sampleButton "b" (Num 50) (Num 50) (Num 120) (Num 40))
              (Num 3) (Num 100))
  = (Num 0, Num 50, Num 3, Num 40).
Proof. reflexivity. Qed.

(** The clamp also brings the position back to [x >= 0], [y >= 0]. *)
Lemma clamp_position_non_negative (b : ChartButton) (W H : number) :
  ge W MIN_CANVAS_DIMENSION = true ->
  ge H MIN_CANVAS_DIMENSION = true ->
  numericGeometry b ->
  nonNegativePosition (clamp b W H).
Proof.
  intros HW HH Hb.
  destruct W as [|w], H as [|h]; try discriminate.
  apply Z.leb_le in HW, HH.
  destruct (clampGeometry_bounds b w h) as (nx & ny & nw & nh & E & B);
    [lia | lia | done |].
  pose proof (clamp_geometry b (Num w) (Num h)) as G.
  rewrite E in G. unfold geometry in G. injection G as Gx Gy Gw Gh.
  unfold nonNegativePosition. rewrite Gx, Gy. simpl.
  split; apply Z.leb_le; lia.
Qed.

(** C1 as stated fails: a button whose x and width are NaN (the button the
    reclamp effect itself produces while a dimension field holds NaN) stays
    NaN under the clamp, and no comparison with NaN holds. *)
Lemma clamp_invariant_fails_on_NaN :
  ~ (forall (b : ChartButton) (W H : number),
       ge W MIN_CANVAS_DIMENSION = true ->
       ge H MIN_CANVAS_DIMENSION = true ->
       geometryInvariant W H (clamp b W H)).
Proof.
  intros Hc.
  specialize (Hc (sampleButton "b" NaN (Num 50) NaN (Num 40)) (Num 100) (Num 100)
                 eq_refl eq_refl).
  vm_compute in Hc. discriminate.
Qed.

(** C2: the clamp is idempotent: for every button b and all W, H >=
    MIN_CANVAS_DIMENSION, clamp (clamp b W H) W H = clamp b W H. *)
Theorem clamp_idempotent (b : ChartButton) (W H : number) :
  ge W MIN_CANVAS_DIMENSION = true ->
  ge H MIN_CANVAS_DIMENSION = true ->
  clamp (clamp b W H) W H = clamp b W H.
Proof.
  intros HW HH.
  destruct W as [|w], H as [|h]; try discriminate.
  apply Z.leb_le in HW, HH.
  rewrite !clamp_unfold.
  case_geometry b;
    unfold clampGeometry, with_geometry; simpl; try reflexivity;
    f_equal; f_equal; lia.
Qed.

End ClampProperties.

(** ** The canvas resize reconciler *)

Section Reconciler.

Variables W H : number.

Lemma reclampButton_snd (b : ChartButton) : snd (reclampButton W H b) = clamp b W H.
Proof. reflexivity. Qed.

Lemma reclampButton_fst (b : ChartButton) :
  fst (reclampButton W H b) = geometryDiffers b (clampGeometry W H b).
Proof.
  unfold reclampButton.
  destruct (geometryDiffers b (clampGeometry W H b)); [|done].
  by destruct (clampGeometry W H b) as [[[nx ny] nw] nh].
Qed.

(** The flag the updater tests: raised by some button of the array. *)
Lemma changed_flag (bs : list ChartButton) :
  existsb fst (map (reclampButton W H) bs)
  = existsb (fun b => geometryDiffers b (clampGeometry W H b)) bs.
Proof.
  induction bs as [|b bs IH]; simpl; [done|].
  by rewrite reclampButton_fst, IH.
Qed.

Lemma reclampUpdater_same_iff (bs : list ChartButton) :
  reclampUpdater W H bs = SameReference
  <-> Forall (fun b => geometryDiffers b (clampGeometry W H b) = false) bs.
Proof.
  unfold reclampUpdater. rewrite changed_flag.
  destruct (existsb _ bs) eqn:E.
  - split; [discriminate|]. intros HF.
    apply existsb_exists in E as (b & Hin & Hb).
    rewrite Forall_forall in HF.
    apply list_elem_of_In in Hin. apply HF in Hin. congruence.
  - split; [|done]. intros _. apply Forall_forall. intros b Hin.
    destruct (geometryDiffers b (clampGeometry W H b)) eqn:Hd; [|done].
    apply list_elem_of_In in Hin.
    assert (existsb (fun b => geometryDiffers b (clampGeometry W H b)) bs = true)
      by (apply existsb_exists; eauto).
    congruence.
Qed.

(** A new array, when one is built, holds the clamp of every button, in
    order: the reclamp is applied to all buttons or to none. *)
Lemma reclampUpdater_new (bs bs' : list ChartButton) :
  reclampUpdater W H bs = NewArray bs' -> bs' = map (fun b => clamp b W H) bs.
Proof.
  unfold reclampUpdater.
  destruct (existsb fst _); [|discriminate].
  intros [= <-]. by rewrite map_map.
Qed.

(** On numeric geometry, [!==] on the four fields is inequality of the
    geometry. *)
Lemma geometryDiffers_numeric (b : ChartButton) :
  numericGeometry b ->
  geometryDiffers b (clampGeometry W H b) = false
  <-> geometry (clamp b W H) = geometry b.
Proof.
  intros (Hx & Hy & Hw & Hh). rewrite clamp_geometry. split.
  - apply geometryDiffers_false.
  - intros E. rewrite E. unfold geometryDiffers, geometry.
    destruct (x b), (y b), (width b), (height b); try discriminate.
    simpl. by rewrite !Z.eqb_refl.
Qed.

(** Value-wise the state after the effect is the clamp of every button,
    whichever reference is handed back. *)
Lemma reclampUpdater_resolve (bs : list ChartButton) :
  resolve bs (reclampUpdater W H bs) = map (fun b => clamp b W H) bs.
Proof.
  destruct (reclampUpdater W H bs) as [|bs'] eqn:E; simpl.
  - apply reclampUpdater_same_iff in E.
    induction E as [|b bs Hb _ IH]; simpl; [done|].
    rewrite <- IH. f_equal.
    unfold clamp, reclampButton. by rewrite Hb.
  - by apply reclampUpdater_new.
Qed.

(** A button that satisfies the invariant and lies at [x >= 0], [y >= 0]
    is left as it is by the clamp. *)
Lemma invariant_fixed (b : ChartButton) :
  geometryInvariant W H b -> nonNegativePosition b ->
  geometryDiffers b (clampGeometry W H b) = false.
Proof.
  unfold geometryInvariant, geometryInvariantb, nonNegativePosition.
  intros Hi [Hx Hy].
  case_geometry b;
    destruct W as [|w], H as [|h]; simpl in *;
    rewrite ?andb_false_r in Hi; try discriminate.
  repeat (apply andb_true_iff in Hi as [Hi ?]).
  repeat match goal with
         | E : (_ <=? _) = true |- _ => apply Z.leb_le in E
         end.
  unfold geometryDiffers, clampGeometry; simpl.
  repeat (apply orb_false_iff; split); apply negb_false_iff, Z.eqb_eq; lia.
Qed.

(** C7 (as amended): on a canvas whose dimensions are safe integers and a
    collection whose buttons have safe-integer geometry (integer-valued, of
    magnitude at most 2^53 - 1, so no NaN), the reconciler hands back the
    original collection itself exactly when the clamp changes the geometry
    of no button; it does so whenever every button satisfies the invariant
    and lies at x >= 0, y >= 0, and on a canvas that holds a button of the
    minimum size (W, H >= MIN_BUTTON_DIMENSION) only then; and when it
    hands back a new collection, that collection is the clamp of every
    button and the x, y, width or height of at least one button
    changed. *)
Theorem reconciler_referentially_stable (bs : list ChartButton) :
  isSafeInteger W = true ->
  isSafeInteger H = true ->
  Forall safeGeometry bs ->
  (reclampUpdater W H bs = SameReference
   <-> Forall (fun b => geometry (clamp b W H) = geometry b) bs)
  /\ (Forall (fun b => geometryInvariant W H b /\ nonNegativePosition b) bs ->
      reclampUpdater W H bs = SameReference)
  /\ (ge W MIN_BUTTON_DIMENSION = true ->
      ge H MIN_BUTTON_DIMENSION = true ->
      reclampUpdater W H bs = SameReference ->
      Forall (fun b => geometryInvariant W H b /\ nonNegativePosition b) bs)
  /\ (forall bs', reclampUpdater W H bs = NewArray bs' ->
      bs' = map (fun b => clamp b W H) bs
      /\ Exists (fun b => geometry (clamp b W H) <> geometry b) bs).
Proof.
  intros _ _ Hsafe.
  assert (Forall numericGeometry bs) as Hn
    by (apply (Forall_impl _ _ _ Hsafe); apply safeGeometry_numeric).
  assert (reclampUpdater W H bs = SameReference
          <-> Forall (fun b => geometry (clamp b W H) = geometry b) bs) as Hiff.
  { rewrite reclampUpdater_same_iff, !Forall_forall.
    rewrite Forall_forall in Hn.
    split; intros HF b Hin; apply (geometryDiffers_numeric b (Hn b Hin)), HF, Hin. }
  split; [exact Hiff|]. split; [|split].
  - intros Hinv. apply reclampUpdater_same_iff.
    apply (Forall_impl _ _ _ Hinv). intros b [Hi Hp]. by apply invariant_fixed.
  - intros HW HH Hsame. apply reclampUpdater_same_iff in Hsame.
    rewrite Forall_forall in Hsame, Hn. apply Forall_forall. intros b Hin.
    assert (clamp b W H = b) as Hfix
      by (unfold clamp, reclampButton; by rewrite (Hsame b Hin)).
    rewrite <- Hfix. apply clamp_lands_inside; [done|done|by apply Hn].
  - intros bs' E. split; [by apply reclampUpdater_new|].
    apply not_Forall_Exists; [intros b; apply _|].
    intros HF. apply Hiff in HF. congruence.
Qed.

End Reconciler.

(** C7 as stated fails: the clamp leaves the geometry of a button whose x
    and width are NaN as it is, field for field, yet the reconciler hands
    back a rebuilt collection, because NaN !== NaN. *)
Lemma reconciler_rebuilds_unchanged_NaN :
  ~ (forall (W H : number) (bs : list ChartButton),
       Forall (fun b => geometry (clamp b W H) = geometry b) bs ->
       reclampUpdater W H bs = SameReference).
Proof.
  intros Hc.
  specialize (Hc (Num 100) (Num 100) [sampleButton "b" NaN (Num 50) NaN (Num 40)]).
  assert (reclampUpdater (Num 100) (Num 100)
            [sampleButton "b" NaN (Num 50) NaN (Num 40)] = SameReference) as E.
  { apply Hc. constructor; [reflexivity|constructor]. }
  vm_compute in E. discriminate.
Qed.

(** The invariant alone does not fix the position: a button to the left of
    the canvas satisfies it and is moved by the reconciler. *)
Example reconciler_moves_negative_x :
  geometryInvariant (Num 100) (Num 100)
    (sampleButton "b" (Num (-10)) (Num 50) (Num 20) (Num 40))
  /\ reclampUpdater (Num 100) (Num 100)
       [sampleButton "b" (Num (-10)) (Num 50) (Num 20) (Num 40)]
     = NewArray [sampleButton "b" (Num 0) (Num 50) (Num 20) (Num 40)].
Proof. split; reflexivity. Qed.

(** On a canvas that does not hold a button of the minimum size a button
    the reconciler leaves alone need not satisfy the invariant: cut to a
    width of 3, it is handed back as it is. *)
Example reconciler_keeps_cut_button_on_tiny_canvas :
  reclampUpdater (Num 3) (Num 100)
    [sampleButton "b" (Num 0) (Num 50) (Num 3) (Num 40)] = SameReference
  /\ ~ geometryInvariant (Num 3) (Num 100)
        (sampleButton "b" (Num 0) (Num 50) (Num 3) (Num 40)).
Proof. split; [reflexivity|discriminate]. Qed.

(** ** The draft and commit protocol *)

Section Lifecycle.

Variable chart : StoredChart.
Variable allRanges : list Range.

(** [l.some(b => b.id === i)] is membership of [i] in the ids of [l]. *)
Lemma some_id_spec (i : string) (l : list ChartButton) :
  existsb (fun b => bool_decide (id b = i)) l = true <-> i ∈ ids l.
Proof.
  unfold ids. rewrite existsb_exists, list_elem_of_fmap. split.
  - intros (b & Hin & Hb). apply bool_decide_eq_true in Hb.
    exists b. split; [done|]. by apply list_elem_of_In.
  - intros (b & -> & Hin). exists b. split; [by apply list_elem_of_In|].
    by apply bool_decide_eq_true.
Qed.

(** Removing an id that is not in use removes nothing. *)
Lemma filter_unused_id (i : string) (l : list ChartButton) :
  i ∉ ids l -> filter (fun b => id b ≠ i) l = l.
Proof.
  induction l as [|b l IH]; [done|]. unfold ids in *. simpl.
  rewrite not_elem_of_cons. intros [Hb Hl].
  rewrite filter_cons_True by congruence. f_equal. by apply IH.
Qed.

(** After the removal the id is no longer in use. *)
Lemma filter_removes_id (i : string) (l : list ChartButton) :
  i ∉ ids (filter (fun b => id b ≠ i) l).
Proof.
  unfold ids. rewrite list_elem_of_fmap. intros (b & -> & Hin).
  apply list_elem_of_filter in Hin as [Hne _]. done.
Qed.

(** The removal keeps every button that carries another id, in order. *)
Lemma filter_other_id (i j : string) (l : list ChartButton) :
  i ≠ j ->
  filter (fun b => id b = j) (filter (fun b => id b ≠ i) l)
  = filter (fun b => id b = j) l.
Proof.
  intros Hij. induction l as [|b l IH]; [done|].
  destruct (decide (id b = i)) as [Hb|Hb].
  - rewrite (filter_cons_False (fun b => id b ≠ i)) by (intros ?; done).
    rewrite (filter_cons_False (fun b => id b = j)) by congruence. done.
  - rewrite (filter_cons_True (fun b => id b ≠ i)) by done.
    destruct (decide (id b = j)) as [Hj|Hj].
    + rewrite !(filter_cons_True (fun b => id b = j)) by done. by f_equal.
    + rewrite !(filter_cons_False (fun b => id b = j)) by done. done.
Qed.

(** What cancel does to the working collection: the membership test is
    against [chart.buttons], the removal against the working collection. *)
Lemma cancel_buttons (st : State) :
  buttons (handleCancelButtonProperties chart st) =
  match editingButton st with
  | Some editing =>
      if bool_decide (id editing ∈ ids (chart_buttons chart))
      then buttons st
      else filter (fun b => id b ≠ id editing) (buttons st)
  | None => buttons st
  end.
Proof.
  unfold handleCancelButtonProperties.
  destruct (editingButton st) as [e|]; [|done].
  destruct (existsb _ (chart_buttons chart)) eqn:E; simpl.
  - apply some_id_spec in E. by rewrite bool_decide_eq_true_2.
  - rewrite bool_decide_eq_false_2; [done|].
    intros Hin. apply some_id_spec in Hin. congruence.
Qed.

Lemma cancel_clears_draft (st : State) :
  editingButton (handleCancelButtonProperties chart st) = None
  /\ isButtonModalOpen (handleCancelButtonProperties chart st) = false.
Proof. done. Qed.

(** Edits made in the dialog reach the draft slot and nothing else. *)
Lemma draftUpdates_frame (fs : list (option ChartButton -> option ChartButton)) (st : State) :
  buttons (draftUpdates fs st) = buttons st
  /\ canvasWidth (draftUpdates fs st) = canvasWidth st
  /\ canvasHeight (draftUpdates fs st) = canvasHeight st
  /\ chartName (draftUpdates fs st) = chartName st.
Proof.
  revert st. induction fs as [|f fs IH]; intros st; [done|].
  unfold draftUpdates in *. simpl.
  destruct (IH (updateDraft f st)) as (-> & -> & -> & ->). done.
Qed.

(** Cancelling a new draft whose id is in use nowhere else gives back the
    collection as it was before [handleAddButton]. *)
Lemma add_then_cancel_fresh (now : Z) (st : State) :
  String_of (Num now) ∉ ids (buttons st) ->
  String_of (Num now) ∉ ids (chart_buttons chart) ->
  let st' := handleCancelButtonProperties chart (handleAddButton allRanges now st) in
  buttons st' = buttons st /\ editingButton st' = None.
Proof.
  intros Hw Hc st'. split; [|done].
  subst st'. rewrite cancel_buttons. simpl.
  rewrite bool_decide_eq_false_2 by done.
  rewrite filter_app, filter_unused_id by done.
  rewrite filter_cons_False by (intros Hne; by apply Hne).
  by rewrite filter_nil, app_nil_r.
Qed.

(** C5: for a button whose id is in the chart's original button set,
    opening its settings, any number of draft updates and then cancel leave
    the committed collection's copies of that button as they were, field
    for field and in place: the updates reach the draft only, and cancel
    removes nothing that carries an original id. *)
Theorem cancel_preserves_existing
    (st : State) (b : ChartButton)
    (fs : list (option ChartButton -> option ChartButton)) :
  id b ∈ ids (chart_buttons chart) ->
  let editing := draftUpdates fs (handleSettingsClick b st) in
  let st' := handleCancelButtonProperties chart editing in
  buttons editing = buttons st
  /\ filter (fun c => id c = id b) (buttons st')
     = filter (fun c => id c = id b) (buttons st)
  /\ editingButton st' = None.
Proof.
  intros Hb editing st'.
  assert (buttons editing = buttons st) as Hed.
  { subst editing. by destruct (draftUpdates_frame fs (handleSettingsClick b st)) as [-> _]. }
  split; [exact Hed|]. split; [|done].
  subst st'. rewrite cancel_buttons, Hed.
  destruct (editingButton editing) as [e|]; [|done].
  case_bool_decide as He; [done|].
  apply filter_other_id. intros Heq. apply He. by rewrite Heq.
Qed.

(** When the dialog leaves the id of the draft alone, as the settings
    dialog does, the whole collection is as it was. *)
Lemma cancel_preserves_collection
    (st : State) (b : ChartButton)
    (fs : list (option ChartButton -> option ChartButton)) :
  id b ∈ ids (chart_buttons chart) ->
  let editing := draftUpdates fs (handleSettingsClick b st) in
  id <$> editingButton editing = Some (id b) ->
  buttons (handleCancelButtonProperties chart editing) = buttons st.
Proof.
  intros Hb editing Hid.
  rewrite cancel_buttons.
  destruct (draftUpdates_frame fs (handleSettingsClick b st)) as [Hed _].
  fold editing in Hed. rewrite Hed.
  destruct (editingButton editing) as [e|]; [|done].
  injection Hid as Hid. rewrite Hid. by rewrite bool_decide_eq_true_2.
Qed.

End Lifecycle.

(** ** Creation, duplication and ids *)

Section Creation.

Variable chart : StoredChart.
Variable allRanges : list Range.

(** Two different clock readings give two different ids. *)
Lemma String_of_clock_inj (t1 t2 : Z) :
  String_of (Num t1) = String_of (Num t2) -> t1 = t2.
Proof. simpl. apply pretty_Z_inj. Qed.

(** What [duplicateCurrentButton] does with an active draft: the copy goes
    to the end of the committed collection, 10 to the right and 10 down,
    under the id made from the clock; the buttons already committed are
    not touched and the draft is dropped. *)
Lemma duplicate_appends_offset_copy (now : Z) (st : State) (draft : ChartButton) :
  editingButton st = Some draft ->
  let st' := duplicateCurrentButton now st in
  buttons st'
  = buttons st ++ [with_id_position draft (String_of (Num now))
                     (add (x draft) (Num 10)) (add (y draft) (Num 10))]
  /\ editingButton st' = None
  /\ isButtonModalOpen st' = false.
Proof. intros E st'. subst st'. unfold duplicateCurrentButton. by rewrite E. Qed.

Lemma duplicate_without_draft (now : Z) (st : State) :
  editingButton st = None -> duplicateCurrentButton now st = st.
Proof. intros E. unfold duplicateCurrentButton. by rewrite E. Qed.

(** The ids stay pairwise distinct as long as the clock reading is not
    already the id of a committed button. *)
Lemma duplicate_keeps_ids_distinct (now : Z) (st : State) (draft : ChartButton) :
  editingButton st = Some draft ->
  NoDup (ids (buttons st)) ->
  String_of (Num now) ∉ ids (buttons st) ->
  NoDup (ids (buttons (duplicateCurrentButton now st))).
Proof.
  intros E Hnd Hfresh.
  destruct (duplicate_appends_offset_copy now st draft E) as (-> & _).
  unfold ids in *. rewrite map_app. simpl.
  apply NoDup_app. split; [done|]. split.
  - intros i Hi Hin. apply list_elem_of_singleton in Hin. by subst.
  - apply NoDup_singleton.
Qed.

(** A button created at one clock reading and duplicated at a later one
    gets another id. *)
Lemma duplicate_later_differs (t1 t2 : Z) (st : State) :
  t1 <> t2 ->
  ids (buttons (duplicateCurrentButton t2 (handleAddButton allRanges t1 st)))
  = ids (buttons st) ++ [String_of (Num t1); String_of (Num t2)]
  /\ String_of (Num t1) <> String_of (Num t2).
Proof.
  intros Hne. split.
  - unfold ids. simpl. rewrite !map_app. simpl. by rewrite <- app_assoc.
  - intros E. by apply String_of_clock_inj in E.
Qed.

End Creation.

(** The example of the specification: the copy of a draft at
    (50, 50, 120, 40) is at (60, 60, 120, 40). *)
Example duplicate_offsets_default_button :
  map geometry
    (buttons (duplicateCurrentButton 1700000000001
                (handleSettingsClick
                   (sampleButton "1700000000000" (Num 50) (Num 50) (Num 120) (Num 40))
                   sampleState)))
  = [(Num 50, Num 50, Num 120, Num 40); (Num 60, Num 60, Num 120, Num 40)].
Proof. reflexivity. Qed.

(** C4 at a clock reading that is already the id of an original button:
    [handleAddButton] then [handleCancelButtonProperties] leave the new
    button in the committed collection, because the membership test of
    cancel finds its id in [chart.buttons]. *)
Theorem add_then_cancel_keeps_button_on_id_clash :
  let st' := handleCancelButtonProperties sampleChart
               (handleAddButton [] 1700000000000 sampleState) in
  ids (buttons sampleState) = ["1700000000000"]
  /\ ids (buttons st') = ["1700000000000"; "1700000000000"]
  /\ buttons st' <> buttons sampleState
  /\ editingButton st' = None.
Proof. vm_compute. repeat split; discriminate. Qed.

(** With the same clock reading for two creations in one session, the
    cancel of the second also removes the first, which had been saved. *)
Example add_then_cancel_removes_saved_twin :
  let empty := mkChart "chart" [] (Num 800) (Num 500) in
  let saved := handleSaveButtonProperties (handleAddButton [] 42 (initialState empty)) in
  ids (buttons saved) = ["42"]
  /\ buttons (handleCancelButtonProperties empty (handleAddButton [] 42 saved)) = [].
Proof. vm_compute. done. Qed.

(** C6 at a clock reading equal to the one the draft was created at: the
    copy [duplicateCurrentButton] appends carries the id of the original,
    so the id is not new in the collection. *)
Theorem duplicate_reuses_id_on_same_clock_reading :
  let empty := mkChart "chart" [] (Num 800) (Num 500) in
  let st := handleAddButton [] 1700000000000 (initialState empty) in
  let st' := duplicateCurrentButton 1700000000000 st in
  id <$> editingButton st = Some "1700000000000"
  /\ ids (buttons st) = ["1700000000000"]
  /\ ids (buttons st') = ["1700000000000"; "1700000000000"]
  /\ map geometry (buttons st')
     = [(Num 50, Num 50, Num 120, Num 40); (Num 60, Num 60, Num 120, Num 40)]
  /\ ~ NoDup (ids (buttons st'))
  /\ editingButton st' = None.
Proof.
  vm_compute. repeat split.
  intros Hnd. apply NoDup_cons in Hnd as [Hnotin _].
  apply Hnotin. left.
Qed.

(** ** Cancel after a save in the same session *)

Section SavedThenCancelled.

Variable chart : StoredChart.
Variable allRanges : list Range.

(** Save puts the draft in every position that carries its id. *)
Lemma save_buttons (st : State) (draft : ChartButton) :
  editingButton st = Some draft ->
  buttons (handleSaveButtonProperties st)
  = map (fun btn => if bool_decide (id btn = id draft) then draft else btn) (buttons st)
  /\ editingButton (handleSaveButtonProperties st) = None.
Proof. intros E. unfold handleSaveButtonProperties. by rewrite E. Qed.

Lemma save_without_draft (st : State) :
  editingButton st = None -> handleSaveButtonProperties st = st.
Proof. intros E. unfold handleSaveButtonProperties. by rewrite E. Qed.


End SavedThenCancelled.


(** ** Canvas dimension fields *)

Section Dimensions.

Lemma dimension_setter_sets (dimension : Dimension) (v : number) (st : State) :
  dimension_of dimension (dimension_setter dimension v st) = v
  /\ buttons (dimension_setter dimension v st) = buttons st
  /\ editingButton (dimension_setter dimension v st) = editingButton st.
Proof. by destruct dimension. Qed.

(** Every pending value is NaN, below the minimum or at least the
    minimum, and only one of the three. *)
Lemma pending_value_cases (v : number) :
  (isNaN v = true \/ lt v MIN_CANVAS_DIMENSION = true)
  \/ ge v MIN_CANVAS_DIMENSION = true.
Proof.
  destruct v as [|z]; simpl; [by left; left|].
  destruct (z <? 100) eqn:E; [by left; right|].
  right. apply Z.ltb_ge in E. by apply Z.leb_le.
Qed.

(** C8: blurring a dimension field with pending value v sets that
    dimension to MIN_CANVAS_DIMENSION exactly when v is NaN or
    v < MIN_CANVAS_DIMENSION (nothing else of the state changes), and
    leaves the state as it is otherwise, that is when
    v >= MIN_CANVAS_DIMENSION. *)
Theorem blur_repairs_dimension (v : number) (dimension : Dimension) (st : State) :
  let st' := handleDimensionBlur v dimension st in
  (isNaN v = true \/ lt v MIN_CANVAS_DIMENSION = true ->
   st' = dimension_setter dimension MIN_CANVAS_DIMENSION st
   /\ dimension_of dimension st' = MIN_CANVAS_DIMENSION)
  /\ (ge v MIN_CANVAS_DIMENSION = true -> st' = st)
  /\ (st' <> st -> isNaN v = true \/ lt v MIN_CANVAS_DIMENSION = true).
Proof.
  intros st'. subst st'. unfold handleDimensionBlur.
  destruct v as [|z]; simpl.
  - split; [|split]; [|discriminate|by left].
    intros _. split; [done|]. by destruct dimension.
  - destruct (z <? 100) eqn:E.
    + split; [|split]; [| |by right].
      * intros _. split; [done|]. by destruct dimension.
      * intros Hge. apply Z.leb_le in Hge. apply Z.ltb_lt in E. lia.
    + split; [|split]; [|done|done].
      intros [?|?]; discriminate.
Qed.

End Dimensions.

(** The two examples of the specification: "abc" and "5" are repaired
    to 100; "250" is kept. *)
Example blur_after_abc :
  canvasWidth (handleDimensionBlur (parseInt "abc") dim_width
                 (handleDimensionChange "abc" dim_width sampleState)) = Num 100.
Proof. reflexivity. Qed.

Example blur_after_5 :
  canvasHeight (handleDimensionBlur (parseInt "5") dim_height
                  (handleDimensionChange "5" dim_height sampleState)) = Num 100.
Proof. reflexivity. Qed.

Example blur_after_250 :
  canvasWidth (handleDimensionBlur (parseInt "250") dim_width
                 (handleDimensionChange "250" dim_width sampleState)) = Num 250.
Proof. reflexivity. Qed.

(** ** Legend overrides *)

Section Legend.

(** C9: saving legend overrides replaces the whole legendOverrides mapping
    of the draft by the supplied mapping, so a key absent from the new
    mapping is absent afterwards whatever the old mapping held; all other
    fields of the draft and the committed collection are untouched, and
    without a draft the draft stays unset. *)
Theorem save_legend_overrides_replaces
    (newOverrides : gmap string string) (st : State) :
  let st' := handleSaveLegendOverrides newOverrides st in
  buttons st' = buttons st
  /\ editingButton st'
     = (fun draft => with_legendOverrides draft newOverrides) <$> editingButton st
  /\ (forall draft', editingButton st' = Some draft' ->
      legendOverrides draft' = newOverrides
      /\ forall k, newOverrides !! k = None -> legendOverrides draft' !! k = None)
  /\ (editingButton st = None -> editingButton st' = None)
  /\ isLegendPreviewOpen st' = false.
Proof.
  intros st'. subst st'. unfold handleSaveLegendOverrides. simpl.
  split; [done|]. split; [by destruct (editingButton st)|].
  split; [|split; [|done]].
  - intros draft' E. destruct (editingButton st) as [d|]; [|discriminate].
    injection E as <-. simpl. done.
  - by intros ->.
Qed.

End Legend.

(** The example of the specification: after overrides {"A": "Spade-Ace"},
    saving the empty mapping leaves no override for "A". *)
Example save_empty_overrides_resets :
  let b := sampleButton "1700000000000" (Num 50) (Num 50) (Num 120) (Num 40) in
  let st1 := handleSaveLegendOverrides {[ "A" := "Spade-Ace" ]}
               (handleSettingsClick b sampleState) in
  let st2 := handleSaveLegendOverrides ∅ st1 in
  (legendOverrides <$> editingButton st1) = Some {[ "A" := "Spade-Ace" ]}
  /\ (legendOverrides <$> editingButton st2) = Some ∅
  /\ buttons st2 = buttons sampleState.
Proof. done. Qed.

(** ** Non-numeric input in a dimension field *)

Section DimensionEntry.

Lemma reclampEffect_buttons (st : State) :
  buttons (reclampEffect st)
  = map (fun b => clamp b (canvasWidth st) (canvasHeight st)) (buttons st)
  /\ canvasWidth (reclampEffect st) = canvasWidth st
  /\ canvasHeight (reclampEffect st) = canvasHeight st.
Proof.
  unfold reclampEffect. simpl. by rewrite reclampUpdater_resolve.
Qed.

(** Under a NaN canvas width the clamp makes x and width NaN; under a NaN
    canvas height, y and height. *)
Lemma clamp_NaN_width (b : ChartButton) (H : number) : x (clamp b NaN H) = NaN.
Proof.
  pose proof (clamp_geometry b NaN H) as G. unfold geometry, clampGeometry in G.
  injection G as Gx _ _ _. rewrite Gx.
  by destruct (x b), (width b).
Qed.

Lemma clamp_NaN_height (b : ChartButton) (W : number) : y (clamp b W NaN) = NaN.
Proof.
  pose proof (clamp_geometry b W NaN) as G. unfold geometry, clampGeometry in G.
  injection G as _ Gy _ _. rewrite Gy.
  by destruct (y b), (height b).
Qed.

(** The clamp never turns a NaN position back into a number. *)
Lemma clamp_keeps_NaN_x (b : ChartButton) (W H : number) :
  x b = NaN -> x (clamp b W H) = NaN.
Proof.
  intros E. pose proof (clamp_geometry b W H) as G.
  unfold geometry, clampGeometry in G.
  injection G as Gx _ _ _. rewrite Gx, E. simpl. done.
Qed.

Lemma clamp_keeps_NaN_y (b : ChartButton) (W H : number) :
  y b = NaN -> y (clamp b W H) = NaN.
Proof.
  intros E. pose proof (clamp_geometry b W H) as G.
  unfold geometry, clampGeometry in G.
  injection G as _ Gy _ _. rewrite Gy, E. simpl. done.
Qed.

Lemma NaN_x_breaks_invariant (b : ChartButton) (W H : number) :
  x b = NaN -> ~ geometryInvariant W H b.
Proof.
  unfold geometryInvariant, geometryInvariantb. intros ->. simpl. discriminate.
Qed.

Lemma NaN_y_breaks_invariant (b : ChartButton) (W H : number) :
  y b = NaN -> ~ geometryInvariant W H b.
Proof.
  unfold geometryInvariant, geometryInvariantb. intros ->. simpl.
  rewrite andb_false_r. discriminate.
Qed.

Lemma invariant_numeric_canvas (b : ChartButton) (W H : number) :
  geometryInvariant W H b -> isNaN W = false /\ isNaN H = false.
Proof.
  unfold geometryInvariant, geometryInvariantb.
  destruct W, H, (add (x b) (width b)), (add (y b) (height b)); simpl;
    rewrite ?andb_false_r; try discriminate; done.
Qed.

Lemma Object_is_spec (a b : number) : Object_is a b = true <-> a = b.
Proof.
  destruct a as [|p], b as [|q]; simpl; split; try done.
  - intros E. apply Z.eqb_eq in E. by subst.
  - intros [= ->]. apply Z.eqb_refl.
Qed.

Lemma Object_is_refl (a : number) : Object_is a a = true.
Proof. by apply Object_is_spec. Qed.

(** A handler that sets one dimension is followed by the reclamp effect
    unless the value it sets is the value the dimension had. *)
Lemma dispatch_dimension_setter (dimension : Dimension) (v : number) (st : State) :
  dispatch (dimension_setter dimension v) st
  = if Object_is (dimension_of dimension st) v
    then dimension_setter dimension v st
    else reclampEffect (dimension_setter dimension v st).
Proof.
  unfold dispatch, commitRender.
  destruct dimension; simpl; rewrite Object_is_refl.
  - by rewrite andb_true_r.
  - done.
Qed.

Lemma dispatch_dimension_setter_value (dimension : Dimension) (v : number) (st : State) :
  dimension_of dimension (dispatch (dimension_setter dimension v) st) = v.
Proof.
  rewrite dispatch_dimension_setter.
  destruct (Object_is _ v); by destruct dimension.
Qed.

Lemma dispatch_dimension_setter_dims (dimension : Dimension) (v : number) (st : State) :
  let st' := dispatch (dimension_setter dimension v) st in
  canvasWidth st' = match dimension with dim_width => v | dim_height => canvasWidth st end
  /\ canvasHeight st' = match dimension with dim_width => canvasHeight st | dim_height => v end.
Proof.
  intros st'. subst st'. rewrite dispatch_dimension_setter.
  destruct (Object_is _ v); by destruct dimension.
Qed.

(** The buttons after such an event: clamped against the new canvas, or
    left alone when the dimension did not change. *)
Lemma dispatch_dimension_setter_buttons (dimension : Dimension) (v : number) (st : State) :
  let st' := dispatch (dimension_setter dimension v) st in
  buttons st'
  = if Object_is (dimension_of dimension st) v
    then buttons st
    else map (fun b => clamp b (canvasWidth st') (canvasHeight st')) (buttons st).
Proof.
  intros st'. subst st'. rewrite dispatch_dimension_setter.
  destruct (Object_is _ v); [by destruct dimension|].
  destruct (reclampEffect_buttons (dimension_setter dimension v st)) as (-> & -> & ->).
  by destruct dimension.
Qed.

(** Whatever the state, as long as its buttons satisfy the invariant: after
    an entry that [parseInt] reads as NaN and the blur that follows, the
    dimension is back at the minimum but every button of the collection
    violates the invariant for the repaired canvas, because its position
    has become NaN and stays NaN. *)
Lemma non_numeric_entry_breaks_every_button
    (value : string) (dimension : Dimension) (st : State) :
  parseInt value = NaN ->
  Forall (geometryInvariant (canvasWidth st) (canvasHeight st)) (buttons st) ->
  let st' := typeThenBlur value dimension st in
  dimension_of dimension st' = MIN_CANVAS_DIMENSION
  /\ Forall (fun b => ~ geometryInvariant (canvasWidth st') (canvasHeight st') b)
       (buttons st').
Proof.
  intros Hp Hinv st'. subst st'.
  unfold typeThenBlur, handleDimensionChange. rewrite Hp. simpl.
  set (st1 := dispatch (dimension_setter dimension NaN) st).
  assert (dimension_of dimension st1 = NaN) as Hd1
    by apply dispatch_dimension_setter_value.
  rewrite Hd1.
  assert (dispatch (handleDimensionBlur NaN dimension) st1
          = dispatch (dimension_setter dimension MIN_CANVAS_DIMENSION) st1) as ->
    by reflexivity.
  split; [apply dispatch_dimension_setter_value|].
  rewrite (dispatch_dimension_setter_buttons dimension MIN_CANVAS_DIMENSION st1).
  rewrite Hd1. simpl.
  apply Forall_forall. intros b Hin.
  apply list_elem_of_fmap in Hin as (b1 & -> & Hin1).
  pose proof (dispatch_dimension_setter_buttons dimension NaN st) as Hb1.
  fold st1 in Hb1. simpl in Hb1.
  destruct (Object_is (dimension_of dimension st) NaN) eqn:E.
  - (* the dimension was NaN already: no button can satisfy the invariant *)
    apply Object_is_spec in E. rewrite Hb1 in Hin1.
    rewrite Forall_forall in Hinv. apply Hinv, invariant_numeric_canvas in Hin1.
    destruct dimension; simpl in E; rewrite E in Hin1; by destruct Hin1.
  - rewrite Hb1 in Hin1. apply list_elem_of_fmap in Hin1 as (b0 & -> & _).
    destruct dimension; simpl in Hd1; rewrite Hd1.
    + apply NaN_x_breaks_invariant, clamp_keeps_NaN_x, clamp_NaN_width.
    + apply NaN_y_breaks_invariant, clamp_keeps_NaN_y, clamp_NaN_height.
Qed.

(** C3 on the default button of an 800 x 500 canvas: the button satisfies
    the invariant; after "abc" is typed in the width field and the field
    is left, the width is repaired to 100 but the button is at x = NaN
    with width = NaN and violates the invariant for the repaired canvas. *)
Theorem non_numeric_entry_is_not_repaired :
  Forall (geometryInvariant (canvasWidth sampleState) (canvasHeight sampleState))
    (buttons sampleState)
  /\ let st' := typeThenBlur "abc" dim_width sampleState in
     canvasWidth st' = Num 100
     /\ canvasHeight st' = Num 500
     /\ map geometry (buttons st') = [(NaN, Num 50, NaN, Num 40)]
     /\ ~ Forall (geometryInvariant (canvasWidth st') (canvasHeight st')) (buttons st').
Proof.
  split.
  - repeat constructor.
  - vm_compute. repeat split.
    intros HF. apply Forall_cons in HF as [Hb _]. discriminate.
Qed.

(** On a numeric canvas the clamp keeps numeric geometry numeric. *)
Lemma clamp_numeric (b : ChartButton) (w h : Z) :
  numericGeometry b -> numericGeometry (clamp b (Num w) (Num h)).
Proof.
  intros (Hx & Hy & Hw & Hh).
  pose proof (clamp_geometry b (Num w) (Num h)) as G.
  unfold geometry, clampGeometry in G. injection G as Gx Gy Gw Gh.
  unfold numericGeometry. rewrite Gx, Gy, Gw, Gh.
  by destruct (x b), (y b), (width b), (height b).
Qed.

Lemma dispatch_no_change (handler : State -> State) (st : State) :
  handler st = st -> dispatch handler st = st.
Proof.
  intros E. unfold dispatch, commitRender. rewrite E.
  by rewrite !Object_is_refl.
Qed.

Lemma dispatch_no_canvas_change (handler : State -> State) (st : State) :
  canvasWidth (handler st) = canvasWidth st ->
  canvasHeight (handler st) = canvasHeight st ->
  dispatch handler st = handler st.
Proof.
  intros EW EH. unfold dispatch, commitRender. rewrite EW, EH.
  by rewrite !Object_is_refl.
Qed.

(** The effect writes the collection only. *)
Lemma dispatch_frame (handler : State -> State) (st : State) :
  canvasWidth (dispatch handler st) = canvasWidth (handler st)
  /\ canvasHeight (dispatch handler st) = canvasHeight (handler st)
  /\ editingButton (dispatch handler st) = editingButton (handler st)
  /\ chartName (dispatch handler st) = chartName (handler st).
Proof. unfold dispatch, commitRender. by destruct (_ && _). Qed.

Lemma dispatch_buttons_changed (handler : State -> State) (st : State) :
  canvasWidth (handler st) <> canvasWidth st
  \/ canvasHeight (handler st) <> canvasHeight st ->
  buttons (dispatch handler st)
  = map (fun b => clamp b (canvasWidth (handler st)) (canvasHeight (handler st)))
      (buttons (handler st)).
Proof.
  intros Hch. unfold dispatch, commitRender.
  assert (Object_is (canvasWidth st) (canvasWidth (handler st))
          && Object_is (canvasHeight st) (canvasHeight (handler st)) = false) as ->.
  { apply andb_false_iff.
    destruct Hch as [Hc|Hc]; [left|right];
      apply not_true_is_false; intros E; apply Object_is_spec in E; congruence. }
  by destruct (reclampEffect_buttons (handler st)) as (-> & _).
Qed.

Lemma dispatch_ids (handler : State -> State) (st : State) :
  ids (buttons (dispatch handler st)) = ids (buttons (handler st)).
Proof.
  unfold dispatch, commitRender.
  destruct (_ && _); [done|]. unfold reclampEffect. simpl.
  rewrite reclampUpdater_resolve. unfold ids. rewrite map_map.
  apply map_ext. intros b.
  by destruct (clamp_frame b (canvasWidth (handler st)) (canvasHeight (handler st)))
    as [-> _].
Qed.

(** An entry that reads as a safe integer, whatever its value, is recovered
    from: with both canvas dimensions safe integers at least the minimum
    and every button of safe-integer geometry satisfying the invariant
    before, every button satisfies it again after the entry and the blur,
    for the canvas the blur leaves. *)
Lemma numeric_entry_recovers
    (value : string) (z : Z) (dimension : Dimension) (st : State) :
  parseInt value = Num z ->
  isSafeInteger (Num z) = true ->
  ge (canvasWidth st) MIN_CANVAS_DIMENSION = true ->
  ge (canvasHeight st) MIN_CANVAS_DIMENSION = true ->
  isSafeInteger (canvasWidth st) = true ->
  isSafeInteger (canvasHeight st) = true ->
  Forall safeGeometry (buttons st) ->
  Forall (geometryInvariant (canvasWidth st) (canvasHeight st)) (buttons st) ->
  let st' := typeThenBlur value dimension st in
  ge (canvasWidth st') MIN_CANVAS_DIMENSION = true
  /\ ge (canvasHeight st') MIN_CANVAS_DIMENSION = true
  /\ Forall (geometryInvariant (canvasWidth st') (canvasHeight st')) (buttons st').
Proof.
  intros Hp _ HW HH _ _ _ Hinv st'. subst st'.
  unfold typeThenBlur, handleDimensionChange. rewrite Hp. cbv zeta.
  pose proof (dispatch_dimension_setter_dims dimension (Num z) st) as [HW1 HH1].
  pose proof (dispatch_dimension_setter_value dimension (Num z) st) as Hd1.
  pose proof (dispatch_dimension_setter_buttons dimension (Num z) st) as Hb1.
  cbv zeta in Hb1.
  set (st1 := dispatch (dimension_setter dimension (Num z)) st) in *.
  clearbody st1. rewrite Hd1.
  assert (Forall numericGeometry (buttons st)) as Hnum
    by (apply (Forall_impl _ _ _ Hinv); apply invariant_numeric).
  (* the buttons after the entry are numeric *)
  assert (Forall numericGeometry (buttons st1)) as Hnum1.
  { rewrite Hb1. destruct (Object_is _ _); [done|].
    rewrite HW1, HH1. apply Forall_forall. intros b Hin.
    apply list_elem_of_fmap in Hin as (b0 & -> & Hin0).
    rewrite Forall_forall in Hnum.
    destruct (canvasWidth st) as [|w0]; [discriminate|].
    destruct (canvasHeight st) as [|h0]; [discriminate|].
    destruct dimension; by apply clamp_numeric, Hnum. }
  destruct (z <? 100) eqn:Ez.
  - (* below the minimum: the blur repairs the dimension and reclamps *)
    assert (dispatch (handleDimensionBlur (Num z) dimension) st1
            = dispatch (dimension_setter dimension MIN_CANVAS_DIMENSION) st1) as ->.
    { unfold dispatch, handleDimensionBlur. simpl. by rewrite Ez. }
    pose proof (dispatch_dimension_setter_dims dimension MIN_CANVAS_DIMENSION st1)
      as [HW2 HH2].
    pose proof (dispatch_dimension_setter_buttons dimension MIN_CANVAS_DIMENSION st1)
      as Hb2.
    cbv zeta in Hb2. rewrite Hd1 in Hb2.
    assert (Object_is (Num z) MIN_CANVAS_DIMENSION = false) as Hne.
    { simpl. apply Z.ltb_lt in Ez. apply Z.eqb_neq. lia. }
    rewrite Hne in Hb2.
    set (st2 := dispatch (dimension_setter dimension MIN_CANVAS_DIMENSION) st1) in *.
    clearbody st2.
    assert (ge (canvasWidth st2) MIN_CANVAS_DIMENSION = true
            /\ ge (canvasHeight st2) MIN_CANVAS_DIMENSION = true) as [HW2' HH2'].
    { rewrite HW2, HH2. destruct dimension; rewrite ?HW1, ?HH1; by split. }
    split; [done|]. split; [done|].
    rewrite Hb2. apply Forall_forall. intros b Hin.
    apply list_elem_of_fmap in Hin as (b1 & -> & Hin1).
    apply clamp_inside_canvas; [by apply min_canvas_holds_min_button..|].
    rewrite Forall_forall in Hnum1. by apply Hnum1.
  - (* at least the minimum: the blur changes nothing *)
    rewrite dispatch_no_change by (unfold handleDimensionBlur; simpl; by rewrite Ez).
    apply Z.ltb_ge in Ez.
    assert (ge (Num z) MIN_CANVAS_DIMENSION = true) as Hz
      by (simpl; apply Z.leb_le; lia).
    assert (ge (canvasWidth st1) MIN_CANVAS_DIMENSION = true
            /\ ge (canvasHeight st1) MIN_CANVAS_DIMENSION = true) as [HW1' HH1'].
    { rewrite HW1, HH1. by destruct dimension. }
    split; [done|]. split; [done|].
    rewrite Hb1. destruct (Object_is (dimension_of dimension st) (Num z)) eqn:E.
    + apply Object_is_spec in E. rewrite HW1, HH1.
      destruct dimension; simpl in E; by rewrite <- E.
    + apply Forall_forall. intros b Hin.
      apply list_elem_of_fmap in Hin as (b0 & -> & Hin0).
      apply clamp_inside_canvas; [by apply min_canvas_holds_min_button..|].
      rewrite Forall_forall in Hnum. by apply Hnum.
Qed.

End DimensionEntry.

(** ** The theorems at work on concrete inputs *)

(** The button of the resize example, on the smallest canvas. *)
Lemma clamp_preserves_invariant_witness :
  ge (Num 100) MIN_CANVAS_DIMENSION = true
  /\ ge (Num 100) MIN_CANVAS_DIMENSION = true
  /\ isSafeInteger (Num 100) = true
  /\ safeGeometry (sampleButton "b" (Num 700) (Num 400) (Num 120) (Num 40))
  /\ geometryInvariant (Num 100) (Num 100)
       (clamp (sampleButton "b" (Num 700) (Num 400) (Num 120) (Num 40))
          (Num 100) (Num 100)).
Proof.
  split; [reflexivity|]. split; [reflexivity|]. split; [reflexivity|].
  split; [repeat split|].
  apply (clamp_preserves_invariant
           (sampleButton "b" (Num 700) (Num 400) (Num 120) (Num 40))
           (Num 100) (Num 100)).
  - reflexivity.
  - reflexivity.
  - reflexivity.
  - reflexivity.
  - repeat split.
Defined.

Lemma clamp_idempotent_witness :
  ge (Num 100) MIN_CANVAS_DIMENSION = true
  /\ ge (Num 250) MIN_CANVAS_DIMENSION = true
  /\ clamp (clamp (sampleButton "b" (Num 700) (Num (-3)) (Num 120) NaN)
              (Num 100) (Num 250)) (Num 100) (Num 250)
     = clamp (sampleButton "b" (Num 700) (Num (-3)) (Num 120) NaN)
         (Num 100) (Num 250).
Proof.
  split; [reflexivity|]. split; [reflexivity|].
  apply (clamp_idempotent (sampleButton "b" (Num 700) (Num (-3)) (Num 120) NaN)
           (Num 100) (Num 250)); reflexivity.
Defined.

Lemma reconciler_referentially_stable_witness :
  isSafeInteger (Num 800) = true
  /\ isSafeInteger (Num 500) = true
  /\ Forall safeGeometry (chart_buttons sampleChart)
  /\ reclampUpdater (Num 800) (Num 500) (chart_buttons sampleChart) = SameReference
  /\ Forall (fun b => geometryInvariant (Num 800) (Num 500) b /\ nonNegativePosition b)
       (chart_buttons sampleChart).
Proof.
  assert (Forall safeGeometry (chart_buttons sampleChart)) as Hs
    by (repeat constructor).
  split; [reflexivity|]. split; [reflexivity|]. split; [exact Hs|].
  destruct (reconciler_referentially_stable (Num 800) (Num 500)
              (chart_buttons sampleChart) eq_refl eq_refl Hs)
    as (_ & Hinv & Hconv & _).
  assert (reclampUpdater (Num 800) (Num 500) (chart_buttons sampleChart)
          = SameReference) as Hsame
    by (apply Hinv; repeat constructor).
  split; [exact Hsame|].
  apply Hconv; [reflexivity | reflexivity | exact Hsame].
Defined.

(** Opening the original button, renaming and moving it in the dialog,
    then cancelling. *)
Lemma cancel_preserves_existing_witness :
  let b := sampleButton "1700000000000" (Num 50) (Num 50) (Num 120) (Num 40) in
  let rename := fmap (fun d => mkButton (id d) "renamed" (color d) (linkedItem d)
                                 (Num 7) (y d) (width d) (height d) (type d)
                                 (isFontAdaptive d) (fontSize d) (fontColor d)
                                 true (legendOverrides d)) in
  id b ∈ ids (chart_buttons sampleChart)
  /\ buttons (handleCancelButtonProperties sampleChart
                (draftUpdates [rename; rename] (handleSettingsClick b sampleState)))
     = [b].
Proof.
  intros b rename.
  assert (id b ∈ ids (chart_buttons sampleChart)) as Hb by (vm_compute; left).
  split; [exact Hb|].
  destruct (cancel_preserves_existing sampleChart sampleState b [rename; rename] Hb)
    as (_ & Hcopy & _).
  vm_compute in Hcopy. vm_compute. exact Hcopy.
Defined.


Lemma blur_repairs_dimension_witness :
  (isNaN (parseInt "abc") = true \/ lt (parseInt "abc") MIN_CANVAS_DIMENSION = true)
  /\ dimension_of dim_width
       (handleDimensionBlur (parseInt "abc") dim_width
          (handleDimensionChange "abc" dim_width sampleState))
     = MIN_CANVAS_DIMENSION
  /\ ge (parseInt "250") MIN_CANVAS_DIMENSION = true
  /\ handleDimensionBlur (parseInt "250") dim_height
       (handleDimensionChange "250" dim_height sampleState)
     = handleDimensionChange "250" dim_height sampleState.
Proof.
  split; [left; reflexivity|]. split; [|split; [reflexivity|]].
  - destruct (blur_repairs_dimension (parseInt "abc") dim_width
                (handleDimensionChange "abc" dim_width sampleState))
      as (Hrepair & _).
    apply Hrepair. left. reflexivity.
  - destruct (blur_repairs_dimension (parseInt "250") dim_height
                (handleDimensionChange "250" dim_height sampleState))
      as (_ & Hkeep & _).
    apply Hkeep. reflexivity.
Defined.

Lemma save_legend_overrides_replaces_witness :
  let b := mkButton "1700000000000" "new" "#60A5FA" "label-only" (Num 50) (Num 50)
             (Num 120) (Num 40) label true (Num 16) "white" false
             {[ "A" := "Spade-Ace"; "K" := "Kaiser" ]} in
  let st' := handleSaveLegendOverrides {[ "K" := "King" ]}
               (handleSettingsClick b sampleState) in
  exists draft', editingButton st' = Some draft'
    /\ legendOverrides draft' !! "A" = None
    /\ legendOverrides draft' !! "K" = Some "King"
    /\ buttons st' = buttons sampleState.
Proof.
  intros b st'.
  destruct (save_legend_overrides_replaces {[ "K" := "King" ]}
              (handleSettingsClick b sampleState))
    as (Hbuttons & Hdraft & Hkeys & _).
  eexists. split; [exact Hdraft|].
  destruct (Hkeys _ Hdraft) as [Hall Habsent].
  split; [apply Habsent; reflexivity|].
  split; [rewrite Hall; reflexivity|exact Hbuttons].
Defined.

(** * Further properties of the component *)

(** ** More on the clamp *)

Section ClampShape.

(** The clamp is idempotent on every canvas, the ones below the minimum,
    the negative ones and NaN included. *)
Theorem clamp_idempotent_any_canvas (b : ChartButton) (W H : number) :
  clamp (clamp b W H) W H = clamp b W H.
Proof.
  rewrite !clamp_unfold.
  case_geometry b; destruct W as [|w], H as [|h];
    unfold clampGeometry, with_geometry; simpl; try reflexivity;
    f_equal; f_equal; lia.
Qed.

(** Each axis is clamped on its own: the position and size the clamp gives
    on one axis depend on the position and size of the button on that axis
    and on the canvas dimension of that axis, and on nothing else. *)
Theorem clamp_axes_independent (b b' : ChartButton) (W W' H H' : number) :
  (horizontal b = horizontal b' ->
   horizontal (clamp b W H) = horizontal (clamp b' W H'))
  /\ (vertical b = vertical b' ->
      vertical (clamp b W H) = vertical (clamp b' W' H)).
Proof.
  pose proof (clamp_geometry b W H) as G.
  pose proof (clamp_geometry b' W H') as G1.
  pose proof (clamp_geometry b' W' H) as G2.
  unfold geometry, clampGeometry in G, G1, G2.
  injection G as Gx Gy Gw Gh. injection G1 as G1x _ G1w _.
  injection G2 as _ G2y _ G2h.
  unfold horizontal, vertical. split; intros [= E1 E2].
  - rewrite Gx, Gw, G1x, G1w, E1, E2. done.
  - rewrite Gy, Gh, G2y, G2h, E1, E2. done.
Qed.

(** On safe integers: a button that is at least the minimum size and no
    wider than the canvas keeps its width and is only moved, into
    [0, W - width]; a button wider than the canvas is put at 0 and cut to
    the canvas width. *)
Theorem clamp_moves_before_it_shrinks (b : ChartButton) (W px pw : Z) (H : number) :
  x b = Num px -> width b = Num pw ->
  isSafeInteger (Num px) = true ->
  isSafeInteger (Num pw) = true ->
  isSafeInteger (Num W) = true ->
  (5 <= pw <= W ->
   horizontal (clamp b (Num W) H) = (Num (Z.max 0 (Z.min px (W - pw))), Num pw))
  /\ (W < Z.max 5 pw ->
      horizontal (clamp b (Num W) H) = (Num 0, Num W)).
Proof.
  intros Hx Hw _ _ _.
  pose proof (clamp_geometry b (Num W) H) as G.
  unfold geometry, clampGeometry in G. injection G as Gx _ Gw _.
  unfold horizontal. rewrite Gx, Gw, Hx, Hw. simpl.
  split; intros Hb; f_equal; f_equal; lia.
Qed.

(** For safe-integer geometry on a safe-integer canvas that holds a button
    of the minimum size, the buttons the clamp leaves as they are are the
    buttons that satisfy the invariant at a position x >= 0, y >= 0. *)
Theorem clamp_fixes_exactly_the_fitting (b : ChartButton) (W H : number) :
  ge W MIN_BUTTON_DIMENSION = true ->
  ge H MIN_BUTTON_DIMENSION = true ->
  isSafeInteger W = true ->
  isSafeInteger H = true ->
  safeGeometry b ->
  clamp b W H = b <-> geometryInvariant W H b /\ nonNegativePosition b.
Proof.
  intros HW HH _ _ Hb. apply safeGeometry_numeric in Hb. split.
  - intros E. split.
    + rewrite <- E. by apply clamp_inside_canvas.
    + destruct W as [|w], H as [|h]; try discriminate.
      apply Z.leb_le in HW, HH.
      destruct (clampGeometry_bounds b w h) as (nx & ny & nw & nh & Eg & B);
        [done | done | done |].
      pose proof (clamp_geometry b (Num w) (Num h)) as G.
      rewrite E, Eg in G. unfold geometry in G. injection G as Gx Gy _ _.
      unfold nonNegativePosition. rewrite Gx, Gy. simpl.
      split; apply Z.leb_le; lia.
  - intros [Hi Hp]. unfold clamp, reclampButton.
    by rewrite (invariant_fixed W H b Hi Hp).
Qed.

(** On safe integers a canvas that grows does not move anything: after a
    clamp on a canvas that holds a button of the minimum size, the clamp
    on any canvas at least as large in both dimensions changes nothing.
    What a smaller canvas has cut stays cut. *)
Theorem clamp_on_larger_canvas (b : ChartButton) (W1 H1 W2 H2 : number) :
  ge W1 MIN_BUTTON_DIMENSION = true -> le W1 W2 = true ->
  ge H1 MIN_BUTTON_DIMENSION = true -> le H1 H2 = true ->
  isSafeInteger W2 = true -> isSafeInteger H2 = true ->
  safeGeometry b ->
  clamp (clamp b W1 H1) W2 H2 = clamp b W1 H1.
Proof.
  intros HW1 HW HH1 HH _ _ _.
  destruct W1 as [|w1], W2 as [|w2], H1 as [|h1], H2 as [|h2]; try discriminate.
  apply Z.leb_le in HW1, HW, HH1, HH.
  rewrite !clamp_unfold.
  case_geometry b; unfold clampGeometry, with_geometry; simpl; try reflexivity;
    f_equal; f_equal; lia.
Qed.

End ClampShape.

(** ** More on the reclamp effect *)

Section ReclampEffect.

(** The reclamp effect writes x, y, width and height and nothing else: the
    collection keeps its length and order, every button keeps its id and
    its other fields, and the draft, the canvas and the dialog flags are
    not touched. *)
Theorem reclampEffect_frame (st : State) :
  map nonGeometry (buttons (reclampEffect st)) = map nonGeometry (buttons st)
  /\ length (buttons (reclampEffect st)) = length (buttons st)
  /\ editingButton (reclampEffect st) = editingButton st
  /\ canvasWidth (reclampEffect st) = canvasWidth st
  /\ canvasHeight (reclampEffect st) = canvasHeight st
  /\ chartName (reclampEffect st) = chartName st
  /\ isButtonModalOpen (reclampEffect st) = isButtonModalOpen st
  /\ isLegendPreviewOpen (reclampEffect st) = isLegendPreviewOpen st.
Proof.
  destruct (reclampEffect_buttons st) as (Hb & _).
  split; [|split; [|done]].
  - rewrite Hb, map_map. apply map_ext. intros b.
    rewrite clamp_unfold. by destruct (clampGeometry _ _ b) as [[[? ?] ?] ?].
  - by rewrite Hb, length_map.
Qed.

Lemma reclampEffect_ids (st : State) :
  ids (buttons (reclampEffect st)) = ids (buttons st).
Proof.
  destruct (reclampEffect_buttons st) as (-> & _).
  unfold ids. rewrite map_map. apply map_ext. intros b.
  by destruct (clamp_frame b (canvasWidth st) (canvasHeight st)) as [-> _].
Qed.

(** What the effect guarantees after an event, on safe integers: if the
    handler changed a canvas dimension and the canvas it leaves holds a
    button of the minimum size, every button then satisfies the invariant
    at x >= 0, y >= 0; if the handler left both dimensions, neither of
    them 0, at the value they had, nothing is clamped and the state is the
    one the handler left. *)
Theorem canvas_change_reclamps (handler : State -> State) (st : State) :
  (canvasWidth (handler st) <> canvasWidth st
   \/ canvasHeight (handler st) <> canvasHeight st ->
   ge (canvasWidth (handler st)) MIN_BUTTON_DIMENSION = true ->
   ge (canvasHeight (handler st)) MIN_BUTTON_DIMENSION = true ->
   isSafeInteger (canvasWidth (handler st)) = true ->
   isSafeInteger (canvasHeight (handler st)) = true ->
   Forall safeGeometry (buttons (handler st)) ->
   Forall (fun b => geometryInvariant (canvasWidth (dispatch handler st))
                      (canvasHeight (dispatch handler st)) b
                    /\ nonNegativePosition b)
     (buttons (dispatch handler st)))
  /\ (canvasWidth (handler st) = canvasWidth st ->
      canvasHeight (handler st) = canvasHeight st ->
      canvasWidth st <> Num 0 ->
      canvasHeight st <> Num 0 ->
      dispatch handler st = handler st).
Proof.
  unfold dispatch, commitRender. split.
  - intros Hch HW HH _ _ Hsafe.
    assert (Forall numericGeometry (buttons (handler st))) as Hnum
      by (apply (Forall_impl _ _ _ Hsafe); apply safeGeometry_numeric).
    assert (Object_is (canvasWidth st) (canvasWidth (handler st))
            && Object_is (canvasHeight st) (canvasHeight (handler st)) = false) as ->.
    { apply andb_false_iff.
      destruct Hch as [Hc|Hc]; [left|right];
        apply not_true_is_false; intros E; apply Object_is_spec in E; congruence. }
    destruct (reclampEffect_buttons (handler st)) as (-> & -> & ->).
    apply Forall_forall. intros b Hin.
    apply list_elem_of_fmap in Hin as (b0 & -> & Hin0).
    rewrite Forall_forall in Hnum. specialize (Hnum b0 Hin0).
    by apply clamp_lands_inside.
  - intros -> -> _ _. by rewrite !Object_is_refl.
Qed.

End ReclampEffect.

(** ** More on the dimension fields *)

Section DimensionFields.

(** Leaving a dimension field always leaves that dimension at a number not
    below the minimum, whatever was typed; the other dimension, the draft
    and the ids of the collection are as before the entry. *)
Theorem blur_leaves_dimension_at_least_min
    (value : string) (dimension : Dimension) (st : State) :
  let st' := typeThenBlur value dimension st in
  ge (dimension_of dimension st') MIN_CANVAS_DIMENSION = true
  /\ match dimension with
     | dim_width => canvasHeight st' = canvasHeight st
     | dim_height => canvasWidth st' = canvasWidth st
     end
  /\ editingButton st' = editingButton st
  /\ ids (buttons st') = ids (buttons st).
Proof.
  intros st'. subst st'. unfold typeThenBlur, handleDimensionChange. cbv zeta.
  set (v := parseInt value).
  pose proof (dispatch_dimension_setter_dims dimension v st) as [HW1 HH1].
  pose proof (dispatch_dimension_setter_value dimension v st) as Hd1.
  assert (editingButton (dispatch (dimension_setter dimension v) st) = editingButton st
          /\ ids (buttons (dispatch (dimension_setter dimension v) st)) = ids (buttons st))
    as [He1 Hi1].
  { destruct (dispatch_frame (dimension_setter dimension v) st) as (_ & _ & -> & _).
    rewrite dispatch_ids. by destruct dimension. }
  set (st1 := dispatch (dimension_setter dimension v) st) in *.
  clearbody st1. rewrite Hd1.
  destruct (isNaN v || lt v MIN_CANVAS_DIMENSION) eqn:Ev.
  - assert (dispatch (handleDimensionBlur v dimension) st1
            = dispatch (dimension_setter dimension MIN_CANVAS_DIMENSION) st1) as ->.
    { unfold dispatch, handleDimensionBlur. by rewrite Ev. }
    pose proof (dispatch_dimension_setter_dims dimension MIN_CANVAS_DIMENSION st1)
      as [HW2 HH2].
    split; [by rewrite dispatch_dimension_setter_value|].
    split; [destruct dimension; congruence|].
    destruct (dispatch_frame (dimension_setter dimension MIN_CANVAS_DIMENSION) st1)
      as (_ & _ & -> & _).
    rewrite dispatch_ids. split; by destruct dimension.
  - rewrite dispatch_no_change by (unfold handleDimensionBlur; by rewrite Ev).
    split.
    + rewrite Hd1. destruct v as [|z]; [discriminate|]. simpl in *.
      apply Z.ltb_ge in Ev. by apply Z.leb_le.
    + split; [destruct dimension; congruence|done].
Qed.

(** The digits of [String(n)] are read back by [parseInt]. *)
Lemma digit_value_pretty (d : N) :
  (d < 10)%N -> digit_value (pretty_N_char d) = Some (Z.of_N d).
Proof.
  intros Hd.
  assert (d = 0 \/ d = 1 \/ d = 2 \/ d = 3 \/ d = 4 \/ d = 5 \/ d = 6 \/ d = 7
          \/ d = 8 \/ d = 9)%N as Hcases by lia.
  repeat (destruct Hcases as [->|Hcases]; [reflexivity|]). by subst.
Qed.

Lemma parse_digits_pretty (n : N) (s : string) :
  parse_digits (pretty_N_go n s) None
  = parse_digits s (if decide (n = 0)%N then None else Some (Z.of_N n)).
Proof.
  revert s. induction (N.lt_wf_0 n) as [n _ IH]. intros s.
  destruct (decide (n = 0)%N) as [->|Hn]; [by rewrite pretty_N_go_0|].
  rewrite pretty_N_go_step by lia.
  rewrite IH by (apply N.div_lt; lia).
  simpl. rewrite digit_value_pretty by (apply N.mod_lt; lia).
  f_equal. f_equal.
  pose proof (N.div_mod n 10 ltac:(lia)) as Hdm.
  destruct (decide (n `div` 10 = 0)%N) as [E|E]; simpl; lia.
Qed.

Lemma pretty_N_go_leading_digit (n : N) (s : string) :
  (0 < n)%N ->
  exists d r, (d < 10)%N /\ pretty_N_go n s = String (pretty_N_char d) r.
Proof.
  revert s. induction (N.lt_wf_0 n) as [n _ IH]. intros s Hn.
  rewrite pretty_N_go_step by done.
  destruct (decide (n `div` 10 = 0)%N) as [E|E].
  - rewrite E, pretty_N_go_0. eexists _, _. split; [|done].
    apply N.mod_lt. lia.
  - apply IH.
    + apply N.div_lt; lia.
    + apply N.neq_0_lt_0. exact E.
Qed.

(** A numeral that starts with a digit has no white space and no sign to
    skip. *)
Lemma parseInt_leading_digit (d : N) (r : string) :
  (d < 10)%N ->
  parseInt (String (pretty_N_char d) r)
  = match parse_digits (String (pretty_N_char d) r) None with
    | None => NaN
    | Some n => Num n
    end.
Proof.
  intros Hd.
  assert (d = 0 \/ d = 1 \/ d = 2 \/ d = 3 \/ d = 4 \/ d = 5 \/ d = 6 \/ d = 7
          \/ d = 8 \/ d = 9)%N as Hcases by lia.
  unfold parseInt.
  repeat (destruct Hcases as [->|Hcases];
          [destruct r as [|c2 [|c3 r3]]; reflexivity|]).
  subst. destruct r as [|c2 [|c3 r3]]; reflexivity.
Qed.

Lemma parseInt_minus_leading_digit (d : N) (r : string) :
  (d < 10)%N ->
  parseInt (String "-"%char (String (pretty_N_char d) r))
  = match parse_digits (String (pretty_N_char d) r) None with
    | None => NaN
    | Some n => Num (- n)
    end.
Proof.
  intros Hd.
  assert (d = 0 \/ d = 1 \/ d = 2 \/ d = 3 \/ d = 4 \/ d = 5 \/ d = 6 \/ d = 7
          \/ d = 8 \/ d = 9)%N as Hcases by lia.
  unfold parseInt.
  repeat (destruct Hcases as [->|Hcases];
          [destruct r as [|c3 r3]; reflexivity|]).
  subst. destruct r as [|c3 r3]; reflexivity.
Qed.

Lemma parse_digits_pretty_pos (p : positive) :
  parse_digits (pretty_N_go (N.pos p) "") None = Some (Z.pos p).
Proof. rewrite parse_digits_pretty. by rewrite decide_False by lia. Qed.

(** [parseInt(String(n), 10)] is [n]. *)
Lemma parseInt_String_of (n : Z) : parseInt (String_of (Num n)) = Num n.
Proof.
  destruct n as [|p|p]; [reflexivity| |].
  - simpl. unfold pretty, pretty_Z, pretty, pretty_positive, pretty, pretty_N.
    rewrite decide_False by lia.
    destruct (pretty_N_go_leading_digit (N.pos p) "") as (d & r & Hd & E); [lia|].
    pose proof (parse_digits_pretty_pos p) as Hp. rewrite E in *.
    rewrite parseInt_leading_digit by done. by rewrite Hp.
  - simpl. unfold pretty, pretty_Z, pretty, pretty_positive, pretty, pretty_N.
    rewrite decide_False by lia.
    destruct (pretty_N_go_leading_digit (N.pos p) "") as (d & r & Hd & E); [lia|].
    pose proof (parse_digits_pretty_pos p) as Hp. rewrite E in *.
    change ("-" +:+ String (pretty_N_char d) r)
      with (String "-"%char (String (pretty_N_char d) r)).
    rewrite parseInt_minus_leading_digit by done. by rewrite Hp.
Qed.

(** Typing the decimal numeral of a safe integer, negative ones included,
    sets the dimension to that integer: [parseInt(String(n), 10)] is
    [n]. *)
Theorem dimension_change_reads_numeral (n : Z) (dimension : Dimension) (st : State) :
  isSafeInteger (Num n) = true ->
  handleDimensionChange (String_of (Num n)) dimension st
  = dimension_setter dimension (Num n) st.
Proof.
  intros _. unfold handleDimensionChange. f_equal. apply parseInt_String_of.
Qed.

End DimensionFields.

(** ** More on the draft and commit protocol *)

Section Protocol.

Variable chart : StoredChart.
Variable allRanges : list Range.

Lemma ids_filter_NoDup (P : ChartButton -> Prop) `{!forall b, Decision (P b)}
    (l : list ChartButton) :
  NoDup (ids l) -> NoDup (ids (filter P l)).
Proof.
  unfold ids. induction l as [|b l IH]; simpl; [done|].
  rewrite NoDup_cons. intros [Hb Hl].
  destruct (decide (P b)).
  - rewrite filter_cons_True by done. simpl. apply NoDup_cons. split; [|by apply IH].
    intros Hin. apply Hb. apply list_elem_of_fmap in Hin as (c & Hc & Hin).
    apply list_elem_of_filter in Hin as [_ Hin].
    apply list_elem_of_fmap. by exists c.
  - rewrite filter_cons_False by done. by apply IH.
Qed.

Lemma ids_replace (draft : ChartButton) (l : list ChartButton) :
  ids (map (fun btn => if bool_decide (id btn = id draft) then draft else btn) l)
  = ids l.
Proof.
  unfold ids. rewrite map_map. apply map_ext. intros b.
  by case_bool_decide.
Qed.

(** Save commits by id: every button that carries the id of the draft
    becomes the draft, the others stay, so the ids of the collection, their
    order and their number do not change; a draft whose id no committed
    button carries is dropped without a trace. *)
Theorem save_commits_by_id (st : State) (draft : ChartButton) :
  editingButton st = Some draft ->
  let st' := handleSaveButtonProperties st in
  ids (buttons st') = ids (buttons st)
  /\ (forall b, b ∈ buttons st' ->
      (id b = id draft -> b = draft) /\ (id b <> id draft -> b ∈ buttons st))
  /\ (id draft ∈ ids (buttons st) -> draft ∈ buttons st')
  /\ (id draft ∉ ids (buttons st) -> buttons st' = buttons st)
  /\ editingButton st' = None
  /\ isButtonModalOpen st' = false.
Proof.
  intros E st'. subst st'.
  destruct (save_buttons st draft E) as [Hb Hd].
  unfold handleSaveButtonProperties in *. rewrite E in *. simpl in *.
  split; [apply ids_replace|]. split; [|split; [|split; [|done]]].
  - intros b Hin. apply list_elem_of_fmap in Hin as (c & -> & Hin).
    case_bool_decide as Hc; split; done.
  - unfold ids. intros Hin. apply list_elem_of_fmap in Hin as (c & Hc & Hin).
    apply list_elem_of_fmap. exists c. split; [|done].
    by rewrite bool_decide_eq_true_2.
  - intros Hout. induction (buttons st) as [|c l IH]; [done|].
    unfold ids in Hout. simpl in Hout. apply not_elem_of_cons in Hout as [Hc Hl].
    simpl. rewrite bool_decide_eq_false_2 by congruence. f_equal. by apply IH.
Qed.

(** Delete removes every button that carries the id of the draft, twins
    included, and keeps the others in their order. *)
Theorem delete_removes_draft_id (st : State) (draft : ChartButton) :
  editingButton st = Some draft ->
  let st' := handleDeleteButton st in
  (id draft ∉ ids (buttons st'))
  /\ (forall b, b ∈ buttons st' <-> b ∈ buttons st /\ id b <> id draft)
  /\ buttons st' `sublist_of` buttons st
  /\ (id draft ∉ ids (buttons st) -> buttons st' = buttons st)
  /\ editingButton st' = None.
Proof.
  intros E st'. subst st'. unfold handleDeleteButton. rewrite E. simpl.
  split; [apply filter_removes_id|]. split; [|split; [|split; [|done]]].
  - intros b. rewrite list_elem_of_filter. tauto.
  - apply sublist_filter.
  - apply filter_unused_id.
Qed.

(** Cancel is one of two things: for a draft whose id is not in
    [chart.buttons] it is exactly a delete; for a draft whose id is in
    [chart.buttons] it only closes the dialog and drops the draft. *)
Theorem cancel_is_delete_or_close (st : State) (draft : ChartButton) :
  editingButton st = Some draft ->
  (id draft ∉ ids (chart_buttons chart) ->
   handleCancelButtonProperties chart st = handleDeleteButton st)
  /\ (id draft ∈ ids (chart_buttons chart) ->
      handleCancelButtonProperties chart st
      = setEditingButton (fun _ => None) (setIsButtonModalOpen false st)).
Proof.
  intros E. unfold handleCancelButtonProperties, handleDeleteButton. rewrite E.
  split; intros Hin.
  - destruct (existsb _ (chart_buttons chart)) eqn:Ex; [|done].
    apply some_id_spec in Ex. done.
  - apply some_id_spec in Hin. by rewrite Hin.
Qed.

(** The new button is not clamped when it is created: it is appended at
    (50, 50, 120, 40) whatever the canvas, no effect runs, and it satisfies
    the invariant exactly when the canvas is at least 170 wide and 90
    high. *)
Theorem new_button_fits_iff (now : Z) (st : State) :
  let st' := dispatch (handleAddButton allRanges now) st in
  exists newButton,
    buttons st' = buttons st ++ [newButton]
    /\ editingButton st' = Some newButton
    /\ geometry newButton = (Num 50, Num 50, Num 120, Num 40)
    /\ canvasWidth st' = canvasWidth st
    /\ canvasHeight st' = canvasHeight st
    /\ (geometryInvariant (canvasWidth st') (canvasHeight st') newButton
        <-> ge (canvasWidth st) (Num 170) = true
            /\ ge (canvasHeight st) (Num 90) = true).
Proof.
  intros st'. subst st'.
  rewrite dispatch_no_canvas_change by done.
  eexists. split; [reflexivity|]. split; [reflexivity|].
  split; [reflexivity|]. split; [reflexivity|]. split; [reflexivity|].
  unfold geometryInvariant, geometryInvariantb. simpl.
  destruct (canvasWidth st) as [|w], (canvasHeight st) as [|h]; simpl;
    rewrite ?andb_false_r; try (split; [discriminate|intros [? ?]; discriminate]).
  rewrite !andb_true_r, andb_true_iff. done.
Qed.

End Protocol.

(** ** Sessions *)

Section Sessions.

Variable chart : StoredChart.
Variable allRanges : list Range.

Lemma ids_app_fresh (l : list ChartButton) (b : ChartButton) :
  NoDup (ids l) -> id b ∉ ids l -> NoDup (ids (l ++ [b])).
Proof.
  intros Hnd Hfresh. unfold ids in *. rewrite map_app. simpl.
  apply NoDup_app. split; [done|]. split; [|apply NoDup_singleton].
  intros i Hi Hin. apply list_elem_of_singleton in Hin. by subst.
Qed.

Lemma handler_keeps_ids_distinct (ev : Event) (st : State) :
  NoDup (ids (buttons st)) -> clockFresh ev st ->
  NoDup (ids (buttons (handlerOf chart allRanges ev st))).
Proof.
  intros Hnd Hfresh. destruct ev; cbn [handlerOf clockFresh] in *.
  - (* AddButton *) by apply ids_app_fresh.
  - (* SettingsClick *) done.
  - (* UpdateDraft *) done.
  - (* SaveButtonProperties *)
    unfold handleSaveButtonProperties.
    destruct (editingButton st) as [e|]; [|done]. simpl. by rewrite ids_replace.
  - (* CancelButtonProperties *)
    rewrite cancel_buttons. destruct (editingButton st) as [e|]; [|done].
    case_bool_decide; [done|]. by apply ids_filter_NoDup.
  - (* DuplicateButton *)
    unfold duplicateCurrentButton.
    destruct (editingButton st) as [e|]; [|done]. simpl. by apply ids_app_fresh.
  - (* DeleteButton *)
    unfold handleDeleteButton.
    destruct (editingButton st) as [e|]; [|done]. simpl. by apply ids_filter_NoDup.
  - (* DimensionChange *) by destruct dimension.
  - (* DimensionBlur *)
    unfold handleDimensionBlur. destruct (_ || _); [|done]. by destruct dimension.
  - (* OpenLegendPreview *)
    unfold handleOpenLegendPreview. by destruct (editingButton st).
  - (* SaveLegendOverrides *) done.
Qed.

(** Over a whole session the ids of the committed collection stay pairwise
    distinct, provided they were at the start and every creation (add or
    duplicate) happens at a clock reading that is not an id in use at that
    moment: no other event, the reclamp effect included, brings in or
    repeats an id. *)
Theorem run_keeps_ids_distinct (evs : list Event) (st : State) :
  NoDup (ids (buttons st)) ->
  clockFreshRun chart allRanges evs st ->
  NoDup (ids (buttons (run chart allRanges evs st))).
Proof.
  revert st. induction evs as [|ev evs IH]; intros st Hnd Hfresh; [done|].
  destruct Hfresh as [Hev Hrest]. unfold run in *. simpl.
  apply IH; [|done].
  unfold step. rewrite dispatch_ids. by apply handler_keeps_ids_distinct.
Qed.

Lemma step_without_draft (ev : Event) (st : State) :
  editingButton st = None -> actsOnDraft ev = true ->
  let st' := step chart allRanges ev st in
  buttons st' = buttons st /\ editingButton st' = None
  /\ canvasWidth st' = canvasWidth st /\ canvasHeight st' = canvasHeight st
  /\ chartName st' = chartName st.
Proof.
  intros E Hev st'. subst st'. unfold step.
  assert (forall handler : State -> State,
            buttons (handler st) = buttons st /\ editingButton (handler st) = None
            /\ canvasWidth (handler st) = canvasWidth st
            /\ canvasHeight (handler st) = canvasHeight st
            /\ chartName (handler st) = chartName st ->
            buttons (dispatch handler st) = buttons st
            /\ editingButton (dispatch handler st) = None
            /\ canvasWidth (dispatch handler st) = canvasWidth st
            /\ canvasHeight (dispatch handler st) = canvasHeight st
            /\ chartName (dispatch handler st) = chartName st) as Hd.
  { intros handler (Hb & He & Hw & Hh & Hn).
    by rewrite dispatch_no_canvas_change. }
  destruct ev; try discriminate; apply Hd; cbn [handlerOf].
  - unfold handleSaveButtonProperties. by rewrite E.
  - unfold handleCancelButtonProperties. by rewrite E.
  - unfold duplicateCurrentButton. by rewrite E.
  - unfold handleDeleteButton. by rewrite E.
  - unfold handleOpenLegendPreview. by rewrite E.
  - unfold handleSaveLegendOverrides. simpl. by rewrite E.
Qed.

(** Without a draft, save, cancel, duplicate, delete and the two legend
    events do nothing to the chart, in any number and order: the
    collection, the canvas and the name stay and no draft appears. *)
Theorem run_without_draft (evs : list Event) (st : State) :
  editingButton st = None ->
  forallb actsOnDraft evs = true ->
  let st' := run chart allRanges evs st in
  buttons st' = buttons st /\ editingButton st' = None
  /\ canvasWidth st' = canvasWidth st /\ canvasHeight st' = canvasHeight st
  /\ chartName st' = chartName st.
Proof.
  revert st. induction evs as [|ev evs IH]; intros st E Hall; [done|].
  simpl in Hall. apply andb_true_iff in Hall as [Hev Hall].
  destruct (step_without_draft ev st E Hev) as (Hb & He & Hw & Hh & Hn).
  destruct (IH (step chart allRanges ev st) He Hall) as (Hb' & He' & Hw' & Hh' & Hn').
  unfold run in *. simpl. repeat split; congruence.
Qed.

End Sessions.

(** ** Legend overrides, leaving the editor and receiving a chart *)

Section Persistence.

Variable chart : StoredChart.

(** The preview dialog saves snapshots: of two saves the later one alone
    counts; the overrides stay in the draft (the settings dialog stays
    open, the preview closes) and reach the committed collection only
    with the save of the button, which puts them on every button that
    carries the id. *)
Theorem legend_overrides_are_snapshots
    (m1 m2 : gmap string string) (button : ChartButton) (st : State) :
  handleSaveLegendOverrides m2 (handleSaveLegendOverrides m1 st)
  = handleSaveLegendOverrides m2 st
  /\ let st1 := handleSaveLegendOverrides m2
                  (handleOpenLegendPreview (handleSettingsClick button st)) in
     buttons st1 = buttons st
     /\ isLegendPreviewOpen st1 = false
     /\ isButtonModalOpen st1 = true
     /\ buttons (handleSaveButtonProperties st1)
        = map (fun btn => if bool_decide (id btn = id button)
                          then with_legendOverrides button m2 else btn)
            (buttons st).
Proof.
  split.
  - unfold handleSaveLegendOverrides, setIsLegendPreview, setEditingButton. simpl.
    by destruct (editingButton st).
  - done.
Qed.

(** Leaving the editor saves the committed collection and nothing of the
    draft: edits made in the settings dialog of an existing button are not
    in the saved chart, and for a button that was just added the saved
    chart holds the button as it was created, not as it was edited. *)
Theorem back_saves_committed_collection
    (allRanges : list Range) (now : Z) (button : ChartButton)
    (fs : list (option ChartButton -> option ChartButton)) (st : State) :
  handleBackButtonClick (draftUpdates fs (handleSettingsClick button st))
  = handleBackButtonClick st
  /\ handleBackButtonClick (draftUpdates fs (handleAddButton allRanges now st))
     = handleBackButtonClick (handleAddButton allRanges now st)
  /\ chart_buttons (handleBackButtonClick (draftUpdates fs (handleAddButton allRanges now st)))
     = buttons st ++ [mkButton (String_of (Num now)) "new" "#60A5FA"
                        (match allRanges with r :: _ => range_id r | [] => "label-only" end)
                        (Num 50) (Num 50) (Num 120) (Num 40)
                        (match allRanges with _ :: _ => normal | [] => label end)
                        true (Num 16) "white" false ∅].
Proof.
  unfold handleBackButtonClick.
  destruct (draftUpdates_frame fs (handleSettingsClick button st)) as (-> & -> & -> & ->).
  destruct (draftUpdates_frame fs (handleAddButton allRanges now st)) as (-> & -> & -> & ->).
  done.
Qed.

(** Saving and getting the saved chart back as the [chart] prop is a round
    trip: when both canvas dimensions are truthy (a number other than 0),
    the state, open draft included, is what it was; a dimension that is
    NaN or 0 comes back as the default instead, 800 wide or 500 high. *)
Theorem save_then_receive_roundtrip (st : State) :
  (isNaN (canvasWidth st) = false -> canvasWidth st <> Num 0 ->
   isNaN (canvasHeight st) = false -> canvasHeight st <> Num 0 ->
   receiveChart (handleBackButtonClick st) st = st)
  /\ (isNaN (canvasWidth st) = true \/ canvasWidth st = Num 0 ->
      canvasWidth (receiveChart (handleBackButtonClick st) st) = Num 800)
  /\ (isNaN (canvasHeight st) = true \/ canvasHeight st = Num 0 ->
      canvasHeight (receiveChart (handleBackButtonClick st) st) = Num 500).
Proof.
  unfold receiveChart. split; [|split].
  - intros HW HW0 HH HH0. apply dispatch_no_change.
    destruct st as [nm bs [|w] [|h] mo ed lp]; try discriminate.
    unfold chartEffect, handleBackButtonClick. simpl.
    destruct (Z.eqb_spec w 0) as [->|_]; [done|].
    destruct (Z.eqb_spec h 0) as [->|_]; [done|]. done.
  - intros Hw. unfold dispatch, commitRender.
    assert (canvasWidth (chartEffect (handleBackButtonClick st) st) = Num 800) as Ec
      by (destruct Hw as [Hw|Hw]; destruct st as [nm bs [|w] H mo ed lp];
          try discriminate; try done; simpl in Hw; by injection Hw as ->).
    destruct (_ && _); [done|].
    by destruct (reclampEffect_buttons (chartEffect (handleBackButtonClick st) st))
      as (_ & -> & _).
  - intros Hh. unfold dispatch, commitRender.
    assert (canvasHeight (chartEffect (handleBackButtonClick st) st) = Num 500) as Ec
      by (destruct Hh as [Hh|Hh]; destruct st as [nm bs W [|h] mo ed lp];
          try discriminate; try done; simpl in Hh; by injection Hh as ->).
    destruct (_ && _); [done|].
    by destruct (reclampEffect_buttons (chartEffect (handleBackButtonClick st) st))
      as (_ & _ & ->).
Qed.

(** Receiving another chart replaces the name and the collection but keeps
    the draft and the dialog open; the buttons of the new chart are
    clamped only if its canvas differs from the current one, so a chart of
    the same canvas comes in as it is stored. *)
Theorem receive_chart_keeps_draft (st : State) :
  let st' := receiveChart chart st in
  editingButton st' = editingButton st
  /\ isButtonModalOpen st' = isButtonModalOpen st
  /\ chartName st' = chart_name chart
  /\ ids (buttons st') = ids (chart_buttons chart)
  /\ (canvasWidth st' = canvasWidth st -> canvasHeight st' = canvasHeight st ->
      buttons st' = chart_buttons chart)
  /\ (canvasWidth st' <> canvasWidth st \/ canvasHeight st' <> canvasHeight st ->
      buttons st'
      = map (fun b => clamp b (canvasWidth st') (canvasHeight st')) (chart_buttons chart)).
Proof.
  intros st'. subst st'. unfold receiveChart.
  split; [|split; [|split; [|split; [apply dispatch_ids|]]]].
  1-3: unfold dispatch, commitRender; destruct (_ && _); done.
  unfold dispatch, commitRender.
  destruct (Object_is (canvasWidth st) (canvasWidth (chartEffect chart st))
            && Object_is (canvasHeight st) (canvasHeight (chartEffect chart st))) eqn:E.
  - split; [done|].
    apply andb_true_iff in E as [EW EH]. apply Object_is_spec in EW, EH.
    intros [Hne|Hne]; by destruct Hne.
  - destruct (reclampEffect_buttons (chartEffect chart st)) as (-> & -> & ->).
    split; [|done].
    intros EW EH. rewrite <- EW, <- EH in E. by rewrite !Object_is_refl in E.
Qed.

(** A chart is repaired when it is opened: the canvas the editor starts
    with is never NaN and never 0, and on a safe-integer canvas that holds
    a button of the minimum size every stored button of safe-integer
    geometry is brought to the invariant at x >= 0, y >= 0. *)
Theorem mount_repairs_chart :
  let st := mount chart in
  (isNaN (canvasWidth st) = false /\ canvasWidth st <> Num 0
   /\ isNaN (canvasHeight st) = false /\ canvasHeight st <> Num 0)
  /\ (ge (canvasWidth st) MIN_BUTTON_DIMENSION = true ->
      ge (canvasHeight st) MIN_BUTTON_DIMENSION = true ->
      isSafeInteger (canvasWidth st) = true ->
      isSafeInteger (canvasHeight st) = true ->
      Forall safeGeometry (chart_buttons chart) ->
      Forall (fun b => geometryInvariant (canvasWidth st) (canvasHeight st) b
                       /\ nonNegativePosition b)
        (buttons st)).
Proof.
  intros st. subst st. unfold mount.
  destruct (reclampEffect_buttons (initialState chart)) as (-> & -> & ->).
  split.
  - simpl. destruct (chart_canvasWidth chart) as [|w], (chart_canvasHeight chart) as [|h];
      simpl; repeat split; try discriminate;
      try (destruct (Z.eqb_spec w 0)); try (destruct (Z.eqb_spec h 0));
      try done; congruence.
  - intros HW HH _ _ Hsafe. simpl buttons.
    apply Forall_forall. intros b Hin.
    apply list_elem_of_fmap in Hin as (b0 & -> & Hin0).
    rewrite Forall_forall in Hsafe. specialize (Hsafe b0 Hin0).
    apply clamp_lands_inside; [done|done|by apply safeGeometry_numeric].
Qed.

End Persistence.

(** ** The default link of a new button *)

Section DefaultLink.

Lemma allRangesOf_nil (folders : list Folder) :
  allRangesOf folders = [] <-> Forall (fun f => ranges f = []) folders.
Proof.
  unfold allRangesOf. induction folders as [|f fs IH]; simpl.
  - split; [constructor|done].
  - split.
    + intros E. apply app_eq_nil in E as [Ef Efs]. constructor; [done|by apply IH].
    + intros HF. apply Forall_cons in HF as [-> HF]. simpl. by apply IH.
Qed.

(** A new button is a label exactly when no folder has a range; otherwise
    it is linked to the first range of the first folder that has one, and
    the legend preview of the new draft finds that range (unless its id is
    the empty string, which the preview takes for no link). *)
Theorem new_button_links_first_range (folders : list Folder) (now : Z) (st : State) :
  let allRanges := allRangesOf folders in
  let st' := handleAddButton allRanges now st in
  exists newButton,
    editingButton st' = Some newButton
    /\ (type newButton = label <-> Forall (fun f => ranges f = []) folders)
    /\ (type newButton = label ->
        linkedItem newButton = "label-only"
        /\ linkedRangeForPreview allRanges st' = None)
    /\ (forall r, head allRanges = Some r ->
        type newButton = normal
        /\ linkedItem newButton = range_id r
        /\ linkedRangeForPreview allRanges st'
           = if truthy_string (range_id r) then Some r else None).
Proof.
  intros allRanges st'. subst st'. eexists. split; [reflexivity|].
  pose proof (allRangesOf_nil folders) as Hnil. fold allRanges in Hnil.
  unfold linkedRangeForPreview. simpl.
  destruct allRanges as [|r0 l]; simpl.
  - split; [split; [intros _; by apply Hnil|done]|]. split; [done|]. done.
  - split.
    { split; [discriminate|]. intros HF. apply Hnil in HF. discriminate. }
    split; [discriminate|].
    intros r [= <-]. split; [done|]. split; [done|].
    destruct (truthy_string (range_id r0)); [|done].
    by rewrite bool_decide_eq_true_2.
Qed.

End DefaultLink.

(** ** The further properties at work on concrete inputs *)

Lemma clamp_axes_independent_witness :
  let b := sampleButton "a" (Num 700) (Num 30) (Num 120) (Num 40) in
  let b' := sampleButton "b" (Num (-8)) (Num 30) NaN (Num 40) in
  vertical b = vertical b'
  /\ vertical (clamp b (Num 100) (Num 60)) = vertical (clamp b' NaN (Num 60)).
Proof.
  intros b b'. split; [reflexivity|].
  destruct (clamp_axes_independent b b' (Num 100) NaN (Num 60) (Num 60)) as [_ Hv].
  apply Hv. reflexivity.
Defined.

Lemma clamp_moves_before_it_shrinks_witness :
  let b := sampleButton "a" (Num 700) (Num 30) (Num 120) (Num 40) in
  isSafeInteger (Num 700) = true /\ isSafeInteger (Num 120) = true
  /\ isSafeInteger (Num 300) = true /\ isSafeInteger (Num 100) = true
  /\ (5 <= 120 <= 300)
  /\ horizontal (clamp b (Num 300) (Num 60)) = (Num 180, Num 120)
  /\ (100 < Z.max 5 120)
  /\ horizontal (clamp b (Num 100) (Num 60)) = (Num 0, Num 100).
Proof.
  intros b. repeat (split; [reflexivity|]).
  split; [lia|]. split; [|split; [lia|]].
  - destruct (clamp_moves_before_it_shrinks b 300 700 120 (Num 60)
                eq_refl eq_refl eq_refl eq_refl eq_refl) as [Hfit _].
    apply Hfit. lia.
  - destruct (clamp_moves_before_it_shrinks b 100 700 120 (Num 60)
                eq_refl eq_refl eq_refl eq_refl eq_refl) as [_ Hcut].
    apply Hcut. lia.
Defined.

Lemma clamp_fixes_exactly_the_fitting_witness :
  let b := sampleButton "a" (Num 50) (Num 50) (Num 120) (Num 40) in
  ge (Num 800) MIN_BUTTON_DIMENSION = true
  /\ ge (Num 500) MIN_BUTTON_DIMENSION = true
  /\ isSafeInteger (Num 800) = true
  /\ isSafeInteger (Num 500) = true
  /\ safeGeometry b
  /\ clamp b (Num 800) (Num 500) = b.
Proof.
  intros b. repeat (split; [reflexivity|]).
  split; [repeat split|].
  apply (clamp_fixes_exactly_the_fitting b (Num 800) (Num 500));
    [reflexivity | reflexivity | reflexivity | reflexivity
     | repeat split | repeat split].
Defined.

Lemma clamp_on_larger_canvas_witness :
  let b := sampleButton "a" (Num 700) (Num 400) (Num 120) (Num 40) in
  ge (Num 100) MIN_BUTTON_DIMENSION = true /\ le (Num 100) (Num 800) = true
  /\ ge (Num 100) MIN_BUTTON_DIMENSION = true /\ le (Num 100) (Num 500) = true
  /\ isSafeInteger (Num 800) = true /\ isSafeInteger (Num 500) = true
  /\ safeGeometry b
  /\ geometry (clamp (clamp b (Num 100) (Num 100)) (Num 800) (Num 500))
     = (Num 0, Num 60, Num 100, Num 40).
Proof.
  intros b. repeat (split; [reflexivity|]).
  split; [repeat split|].
  rewrite (clamp_on_larger_canvas b (Num 100) (Num 100) (Num 800) (Num 500));
    [reflexivity | reflexivity | reflexivity | reflexivity | reflexivity
     | reflexivity | reflexivity | repeat split].
Defined.

Lemma canvas_change_reclamps_witness :
  let handler := handleDimensionChange "60" dim_width in
  canvasWidth (handler sampleState) <> canvasWidth sampleState
  /\ isSafeInteger (canvasWidth (handler sampleState)) = true
  /\ isSafeInteger (canvasHeight (handler sampleState)) = true
  /\ Forall safeGeometry (buttons (handler sampleState))
  /\ Forall (fun b => geometryInvariant (Num 60) (Num 500) b /\ nonNegativePosition b)
       (buttons (dispatch handler sampleState))
  /\ canvasWidth sampleState <> Num 0
  /\ canvasHeight sampleState <> Num 0
  /\ dispatch (handleSettingsClick
                 (sampleButton "1700000000000" (Num 50) (Num 50) (Num 120) (Num 40)))
       sampleState
     = handleSettingsClick
         (sampleButton "1700000000000" (Num 50) (Num 50) (Num 120) (Num 40))
         sampleState.
Proof.
  intros handler.
  assert (canvasWidth (handler sampleState) <> canvasWidth sampleState) as Hch
    by (vm_compute; discriminate).
  assert (Forall safeGeometry (buttons (handler sampleState))) as Hsafe
    by (repeat constructor).
  assert (canvasWidth sampleState <> Num 0) as HW0 by (vm_compute; discriminate).
  assert (canvasHeight sampleState <> Num 0) as HH0 by (vm_compute; discriminate).
  split; [exact Hch|]. split; [reflexivity|]. split; [reflexivity|].
  split; [exact Hsafe|]. split; [|split; [exact HW0|split; [exact HH0|]]].
  - destruct (canvas_change_reclamps handler sampleState) as [Hre _].
    apply (Hre (or_introl Hch));
      [reflexivity | reflexivity | reflexivity | reflexivity | exact Hsafe].
  - destruct (canvas_change_reclamps
                (handleSettingsClick
                   (sampleButton "1700000000000" (Num 50) (Num 50) (Num 120) (Num 40)))
                sampleState) as [_ Hkeep].
    apply Hkeep; [reflexivity | reflexivity | exact HW0 | exact HH0].
Defined.

Lemma non_numeric_entry_breaks_every_button_witness :
  parseInt "" = NaN
  /\ Forall (geometryInvariant (canvasWidth sampleState) (canvasHeight sampleState))
       (buttons sampleState)
  /\ Forall (fun b => ~ geometryInvariant (Num 800) (Num 100) b)
       (buttons (typeThenBlur "" dim_height sampleState)).
Proof.
  assert (Forall (geometryInvariant (canvasWidth sampleState) (canvasHeight sampleState))
            (buttons sampleState)) as Hinv by (repeat constructor).
  split; [reflexivity|]. split; [exact Hinv|].
  destruct (non_numeric_entry_breaks_every_button "" dim_height sampleState eq_refl Hinv)
    as [_ Hbroken].
  exact Hbroken.
Defined.

Lemma numeric_entry_recovers_witness :
  parseInt "5" = Num 5
  /\ isSafeInteger (Num 5) = true
  /\ ge (canvasWidth sampleState) MIN_CANVAS_DIMENSION = true
  /\ ge (canvasHeight sampleState) MIN_CANVAS_DIMENSION = true
  /\ isSafeInteger (canvasWidth sampleState) = true
  /\ isSafeInteger (canvasHeight sampleState) = true
  /\ Forall safeGeometry (buttons sampleState)
  /\ Forall (geometryInvariant (canvasWidth sampleState) (canvasHeight sampleState))
       (buttons sampleState)
  /\ Forall (geometryInvariant (Num 100) (Num 500))
       (buttons (typeThenBlur "5" dim_width sampleState)).
Proof.
  assert (Forall safeGeometry (buttons sampleState)) as Hsafe
    by (repeat constructor).
  assert (Forall (geometryInvariant (canvasWidth sampleState) (canvasHeight sampleState))
            (buttons sampleState)) as Hinv by (repeat constructor).
  repeat (split; [reflexivity|]).
  split; [exact Hsafe|]. split; [exact Hinv|].
  destruct (numeric_entry_recovers "5" 5 dim_width sampleState
              eq_refl eq_refl eq_refl eq_refl eq_refl eq_refl Hsafe Hinv)
    as (_ & _ & Hfit).
  exact Hfit.
Defined.

Lemma save_commits_by_id_witness :
  let draft := sampleButton "1700000000000" (Num 10) (Num 20) (Num 30) (Num 40) in
  let st := handleSettingsClick draft sampleState in
  editingButton st = Some draft
  /\ ids (buttons (handleSaveButtonProperties st)) = ids (buttons st)
  /\ draft ∈ buttons (handleSaveButtonProperties st).
Proof.
  intros draft st.
  destruct (save_commits_by_id st draft eq_refl) as (Hids & _ & Hin & _).
  split; [reflexivity|]. split; [exact Hids|].
  apply Hin. vm_compute. left.
Defined.

Lemma delete_removes_draft_id_witness :
  let draft := sampleButton "1700000000000" (Num 10) (Num 20) (Num 30) (Num 40) in
  let st := handleSettingsClick draft sampleState in
  editingButton st = Some draft
  /\ id draft ∉ ids (buttons (handleDeleteButton st)).
Proof.
  intros draft st.
  destruct (delete_removes_draft_id st draft eq_refl) as (Hout & _).
  split; [reflexivity|exact Hout].
Defined.

Lemma cancel_is_delete_or_close_witness :
  let st := handleAddButton [] 1700000000001 sampleState in
  exists draft,
    editingButton st = Some draft
    /\ (id draft ∉ ids (chart_buttons sampleChart))
    /\ handleCancelButtonProperties sampleChart st = handleDeleteButton st.
Proof.
  intros st. eexists. split; [reflexivity|].
  assert (String_of (Num 1700000000001) ∉ ids (chart_buttons sampleChart)) as Hout.
  { vm_compute. intros Hin. apply list_elem_of_singleton in Hin. discriminate. }
  split; [exact Hout|].
  destruct (cancel_is_delete_or_close sampleChart st _ eq_refl) as [Hdel _].
  apply Hdel. exact Hout.
Defined.

Lemma add_then_cancel_fresh_witness :
  (String_of (Num 1700000000001) ∉ ids (buttons sampleState))
  /\ (String_of (Num 1700000000001) ∉ ids (chart_buttons sampleChart))
  /\ buttons (handleCancelButtonProperties sampleChart
                (handleAddButton [] 1700000000001 sampleState))
     = buttons sampleState.
Proof.
  assert (String_of (Num 1700000000001) ∉ ids (buttons sampleState)) as Hw.
  { vm_compute. intros Hin. apply list_elem_of_singleton in Hin. discriminate. }
  assert (String_of (Num 1700000000001) ∉ ids (chart_buttons sampleChart)) as Hc.
  { vm_compute. intros Hin. apply list_elem_of_singleton in Hin. discriminate. }
  split; [exact Hw|]. split; [exact Hc|].
  destruct (add_then_cancel_fresh sampleChart [] 1700000000001 sampleState Hw Hc)
    as [Hb _].
  exact Hb.
Defined.

Lemma duplicate_keeps_ids_distinct_witness :
  let draft := sampleButton "1700000000000" (Num 50) (Num 50) (Num 120) (Num 40) in
  let st := handleSettingsClick draft sampleState in
  editingButton st = Some draft
  /\ NoDup (ids (buttons st))
  /\ (String_of (Num 1700000000001) ∉ ids (buttons st))
  /\ NoDup (ids (buttons (duplicateCurrentButton 1700000000001 st))).
Proof.
  intros draft st.
  assert (NoDup (ids (buttons st))) as Hnd.
  { vm_compute. apply NoDup_singleton. }
  assert (String_of (Num 1700000000001) ∉ ids (buttons st)) as Hfresh.
  { vm_compute. intros Hin. apply list_elem_of_singleton in Hin. discriminate. }
  split; [reflexivity|]. split; [exact Hnd|]. split; [exact Hfresh|].
  exact (duplicate_keeps_ids_distinct 1700000000001 st draft eq_refl Hnd Hfresh).
Defined.

Lemma duplicate_later_differs_witness :
  1700000000001 <> 1700000000002
  /\ ids (buttons (duplicateCurrentButton 1700000000002
                     (handleAddButton [] 1700000000001 sampleState)))
     = ids (buttons sampleState)
       ++ [String_of (Num 1700000000001); String_of (Num 1700000000002)].
Proof.
  assert (1700000000001 <> 1700000000002) as Hne by lia.
  split; [exact Hne|].
  destruct (duplicate_later_differs [] 1700000000001 1700000000002 sampleState Hne)
    as [Hids _].
  exact Hids.
Defined.

(** A session: add, edit, save, type a width, leave the field, open the
    settings of the new button, duplicate it. *)
Lemma run_keeps_ids_distinct_witness :
  let rename := fmap (fun d => with_legendOverrides d {[ "A" := "Ace" ]}) in
  let evs := [AddButton 1700000000001; UpdateDraft rename; SaveButtonProperties;
              DimensionChange "90" dim_width; DimensionBlur (Num 90) dim_width;
              SettingsClick (sampleButton "1700000000001" (Num 0) (Num 50) (Num 90) (Num 40));
              DuplicateButton 1700000000002] in
  NoDup (ids (buttons sampleState))
  /\ clockFreshRun sampleChart [] evs sampleState
  /\ NoDup (ids (buttons (run sampleChart [] evs sampleState)))
  /\ ids (buttons (run sampleChart [] evs sampleState))
     = ["1700000000000"; "1700000000001"; "1700000000002"].
Proof.
  intros rename evs.
  assert (NoDup (ids (buttons sampleState))) as Hnd.
  { vm_compute. apply NoDup_singleton. }
  assert (clockFreshRun sampleChart [] evs sampleState) as Hfresh.
  { vm_compute. repeat split.
    - intros Hin. apply list_elem_of_singleton in Hin. discriminate.
    - intros Hin. apply elem_of_cons in Hin as [Hin|Hin]; [discriminate|].
      apply list_elem_of_singleton in Hin. discriminate. }
  split; [exact Hnd|]. split; [exact Hfresh|].
  split; [|vm_compute; reflexivity].
  exact (run_keeps_ids_distinct sampleChart [] evs sampleState Hnd Hfresh).
Defined.

Lemma run_without_draft_witness :
  let evs := [SaveButtonProperties; DuplicateButton 1700000000001; DeleteButton;
              SaveLegendOverrides ∅; CancelButtonProperties; OpenLegendPreview] in
  editingButton sampleState = None
  /\ forallb actsOnDraft evs = true
  /\ buttons (run sampleChart [] evs sampleState) = buttons sampleState.
Proof.
  intros evs. split; [reflexivity|]. split; [reflexivity|].
  destruct (run_without_draft sampleChart [] evs sampleState eq_refl eq_refl)
    as [Hb _].
  exact Hb.
Defined.

Lemma save_then_receive_roundtrip_witness :
  let st := handleSettingsClick
              (sampleButton "1700000000000" (Num 50) (Num 50) (Num 120) (Num 40))
              sampleState in
  isNaN (canvasWidth st) = false /\ canvasWidth st <> Num 0
  /\ isNaN (canvasHeight st) = false /\ canvasHeight st <> Num 0
  /\ receiveChart (handleBackButtonClick st) st = st.
Proof.
  intros st.
  assert (canvasWidth st <> Num 0) as HW by (vm_compute; discriminate).
  assert (canvasHeight st <> Num 0) as HH by (vm_compute; discriminate).
  split; [reflexivity|]. split; [exact HW|]. split; [reflexivity|].
  split; [exact HH|].
  destruct (save_then_receive_roundtrip st) as [Hround _].
  exact (Hround eq_refl HW eq_refl HH).
Defined.

(** Another chart of the same canvas comes in unclamped, and the draft of
    the previous chart stays open. *)
Lemma receive_chart_keeps_draft_witness :
  let other := mkChart "other"
                 [sampleButton "7" (Num 790) (Num 50) (Num 120) (Num 40)]
                 (Num 800) (Num 500) in
  let st := handleSettingsClick
              (sampleButton "1700000000000" (Num 50) (Num 50) (Num 120) (Num 40))
              sampleState in
  canvasWidth (receiveChart other st) = canvasWidth st
  /\ canvasHeight (receiveChart other st) = canvasHeight st
  /\ buttons (receiveChart other st) = chart_buttons other
  /\ (id <$> editingButton (receiveChart other st)) = Some "1700000000000".
Proof.
  intros other st.
  destruct (receive_chart_keeps_draft other st) as (Hdraft & _ & _ & _ & Hsame & _).
  split; [reflexivity|]. split; [reflexivity|].
  split; [apply Hsame; reflexivity|].
  rewrite Hdraft. reflexivity.
Defined.

Lemma mount_repairs_chart_witness :
  let stored := mkChart "stored"
                  [sampleButton "7" (Num 790) (Num (-5)) (Num 120) (Num 2)]
                  NaN (Num 0) in
  ge (canvasWidth (mount stored)) MIN_BUTTON_DIMENSION = true
  /\ ge (canvasHeight (mount stored)) MIN_BUTTON_DIMENSION = true
  /\ isSafeInteger (canvasWidth (mount stored)) = true
  /\ isSafeInteger (canvasHeight (mount stored)) = true
  /\ Forall safeGeometry (chart_buttons stored)
  /\ Forall (fun b => geometryInvariant (Num 800) (Num 500) b /\ nonNegativePosition b)
       (buttons (mount stored)).
Proof.
  intros stored.
  assert (Forall safeGeometry (chart_buttons stored)) as Hsafe
    by (repeat constructor).
  repeat (split; [reflexivity|]). split; [exact Hsafe|].
  destruct (mount_repairs_chart stored) as [_ Hfit].
  exact (Hfit eq_refl eq_refl eq_refl eq_refl Hsafe).
Defined.

Lemma new_button_links_first_range_witness :
  let folders := [mkFolder []; mkFolder [mkRange "r1"; mkRange "r2"]; mkFolder [mkRange "r3"]] in
  head (allRangesOf folders) = Some (mkRange "r1")
  /\ linkedRangeForPreview (allRangesOf folders)
       (handleAddButton (allRangesOf folders) 1700000000001 sampleState)
     = Some (mkRange "r1").
Proof.
  intros folders. split; [reflexivity|].
  destruct (new_button_links_first_range folders 1700000000001 sampleState)
    as (newButton & _ & _ & _ & Hlink).
  destruct (Hlink (mkRange "r1") eq_refl) as (_ & _ & Hpreview).
  exact Hpreview.
Defined.

Lemma dimension_change_reads_numeral_witness :
  isSafeInteger (Num (-9007199254740991)) = true
  /\ canvasWidth (handleDimensionChange (String_of (Num (-9007199254740991)))
                    dim_width sampleState)
     = Num (-9007199254740991).
Proof.
  split; [reflexivity|].
  rewrite (dimension_change_reads_numeral (-9007199254740991) dim_width sampleState);
    reflexivity.
Defined.
